(** * TiramisuASR: the DeepSpeech2 training driver and the CTC smoke test

    A shallow embedding of [examples/deepspeech2/train_ds2.py] (the
    training driver [main]) and of the objects that [tests/test_ctc.py]
    exercises, together with the properties that the specification states
    about them.

    The driver is orchestration over libraries: [argparse] from the Python
    standard library, the [tiramisu_asr] package and TensorFlow.  The
    driver itself is embedded statement by statement in a small
    trace-and-error monad; the library calls it makes are recorded as
    events carrying their arguments.  [argparse] is modelled after the
    CPython implementation, for parsers that declare optional arguments
    only, which is what the driver does. *)

From Stdlib Require Import ZArith String Ascii List Lia.
From stdpp Require Import gmap strings list.

Local Open Scope string_scope.
Local Open Scope Z_scope.

(** ** Python strings *)

Module PyStr.

(** [s.startswith(p)] *)
Fixpoint startswith (s p : string) : bool :=
  match p, s with
  | EmptyString, _ => true
  | String c p', String d s' => if Ascii.eqb c d then startswith s' p' else false
  | String _ _, EmptyString => false
  end.

(** [c in s] for a character [c] *)
Fixpoint contains (c : ascii) (s : string) : bool :=
  match s with
  | EmptyString => false
  | String d s' => if Ascii.eqb c d then true else contains c s'
  end.

(** [s.split(c, 1)] when [c] occurs in [s]: the text before the first
    [c] and the text after it; [None] when [c] does not occur. *)
Fixpoint split_once (c : ascii) (s : string) : option (string * string) :=
  match s with
  | EmptyString => None
  | String d s' =>
      if Ascii.eqb c d then Some (EmptyString, s')
      else match split_once c s' with
           | Some (before, after) => Some (String d before, after)
           | None => None
           end
  end.

(** [s.lstrip(c)] *)
Fixpoint lstrip (c : ascii) (s : string) : string :=
  match s with
  | String d s' => if Ascii.eqb c d then lstrip c s' else s
  | EmptyString => EmptyString
  end.

(** [s.replace(c, d)] for single characters *)
Fixpoint replace (c d : ascii) (s : string) : string :=
  match s with
  | EmptyString => EmptyString
  | String e s' => String (if Ascii.eqb c e then d else e) (replace c d s')
  end.

(** [bool(s)]: a string is truthy exactly when it is not empty. *)
Definition bool (s : string) : Datatypes.bool :=
  match s with
  | EmptyString => false
  | String _ _ => true
  end.

Definition is_digit (c : ascii) : Datatypes.bool :=
  let n := N_of_ascii c in ((48 <=? n) && (n <=? 57))%N.

(** The white space that [int] skips: space, tab, line feed, vertical tab,
    form feed and carriage return. *)
Definition is_space (c : ascii) : Datatypes.bool :=
  let n := N_of_ascii c in ((n =? 32) || ((9 <=? n) && (n <=? 13)))%N.

Definition digit_value (c : ascii) : Z := Z.of_N (N_of_ascii c) - 48.

Fixpoint lstrip_space (s : string) : string :=
  match s with
  | String c s' => if is_space c then lstrip_space s' else s
  | EmptyString => EmptyString
  end.

Fixpoint all_space (s : string) : Datatypes.bool :=
  match s with
  | EmptyString => true
  | String c s' => is_space c && all_space s'
  end.

(** The digits of a decimal literal after its first digit: digits, single
    underscores between digits, then white space up to the end.  [acc] is
    the value read so far; [after_underscore] tells that the previous
    character was an underscore, after which a digit must follow. *)
Fixpoint int_digits (acc : Z) (after_underscore : Datatypes.bool) (s : string)
  : option Z :=
  match s with
  | EmptyString => if after_underscore then None else Some acc
  | String c s' =>
      if is_digit c then int_digits (10 * acc + digit_value c) false s'
      else if after_underscore then None
      else if Ascii.eqb c "_" then int_digits acc true s'
      else if all_space s then Some acc
      else None
  end.

Definition int_unsigned (s : string) : option Z :=
  match s with
  | String c s' => if is_digit c then int_digits (digit_value c) false s' else None
  | EmptyString => None
  end.

(** [int(s)] in base ten: optional surrounding white space, an optional
    sign, then digits with single underscores allowed between them.
    [None] stands for [ValueError]. *)
Definition int (s : string) : option Z :=
  match lstrip_space s with
  | String "-" s' => Z.opp <$> int_unsigned s'
  | String "+" s' => int_unsigned s'
  | s' => int_unsigned s'
  end.

Fixpoint all_digits (s : string) : Datatypes.bool :=
  match s with
  | EmptyString => true
  | String c s' => is_digit c && all_digits s'
  end.

(** [s] with one final line feed removed: the regular expression anchor
    [$] also matches just before a line feed that ends the text. *)
Fixpoint chomp (s : string) : string :=
  match s with
  | EmptyString => EmptyString
  | String c EmptyString => if Ascii.eqb c "010" then EmptyString else s
  | String c s' => String c (chomp s')
  end.

End PyStr.

(** ** The argument parser

    [argparse] as the driver uses it: a parser made by [ArgumentParser],
    which registers [-h/--help] by itself, and optional arguments added by
    [add_argument] with a [type] and a [default], each storing exactly
    one value.  The parsing functions follow [_parse_optional],
    [_get_option_tuples], [consume_optional], [_get_values] and
    [parse_args] of CPython's [argparse.py].  Strings are taken to be
    ASCII. *)

Module Argparse.

(** The values a namespace attribute of this parser can hold. *)
Inductive value :=
| PyNone
| PyBool (b : bool)
| PyInt (z : Z)
| PyStr (s : string)
| PyEmptyList.

#[global] Instance value_eq_dec : EqDecision value.
Proof. solve_decision. Defined.

(** The callables passed as [type=]. *)
Inductive type_func := type_str | type_bool | type_int.

(** [type_func(arg_string)]; [None] stands for the [ValueError] that
    [int] raises. *)
Definition call_type (t : type_func) (arg_string : string) : option value :=
  match t with
  | type_str => Some (PyStr arg_string)
  | type_bool => Some (PyBool (PyStr.bool arg_string))
  | type_int => PyInt <$> PyStr.int arg_string
  end.

Inductive action_class := StoreAction | HelpAction.

(** An action of the parser.  [dest = None] and [arg_default = None]
    stand for [argparse.SUPPRESS], which the help action uses. *)
Record Action := {
  option_strings : list string;
  dest : option string;
  class : action_class;
  arg_type : type_func;
  arg_default : option value;
  arg_help : string
}.

Record Parser := {
  prog : string;
  actions : list Action
}.

Abbreviation Namespace := (gmap string value).

Inductive outcome :=
| Parsed (ns : Namespace)
| SystemExit (code : Z).

(** [parser.error(...)] prints the usage and exits with status 2. *)
Definition error : outcome := SystemExit 2.

Definition help_action : Action :=
  {| option_strings := ["-h"; "--help"]; dest := None; class := HelpAction;
     arg_type := type_str; arg_default := None;
     arg_help := "show this help message and exit" |}.

(** [argparse.ArgumentParser(prog=...)], with [add_help] left at its
    default. *)
Definition ArgumentParser (prog : string) : Parser :=
  {| prog := prog; actions := [help_action] |}.

Definition is_long (option_string : string) : bool :=
  match option_string with
  | String _ (String "-" _) => true
  | _ => false
  end.

(** The attribute name of an optional argument: its first long option
    string, or else its first option string, without the leading dashes
    and with inner dashes turned into underscores. *)
Definition infer_dest (flags : list string) : string :=
  let dest_option_string :=
    match filter (fun s => Is_true (is_long s)) flags with
    | s :: _ => s
    | [] => match flags with s :: _ => s | [] => "" end
    end in
  PyStr.replace "-" "_" (PyStr.lstrip "-" dest_option_string).

(** [parser.add_argument(flags..., type=..., default=..., help=...)] *)
Definition add_argument (flags : list string) (type : type_func)
    (default : value) (help : string) (p : Parser) : Parser :=
  {| prog := prog p;
     actions := actions p ++
       [{| option_strings := flags; dest := Some (infer_dest flags);
           class := StoreAction; arg_type := type;
           arg_default := Some default; arg_help := help |}] |}.

(** [parser._option_string_actions], in registration order. *)
Definition option_string_actions (p : Parser) : list (string * Action) :=
  flat_map (fun a => map (fun s => (s, a)) (option_strings a)) (actions p).

Fixpoint assoc {A} (k : string) (l : list (string * A)) : option A :=
  match l with
  | [] => None
  | (k', v) :: l' => if String.eqb k k' then Some v else assoc k l'
  end.

Definition lookup_option (p : Parser) (option_string : string) : option Action :=
  assoc option_string (option_string_actions p).

(** An interpretation of an argument string as an option: the action
    ([None] when no option of the parser fits), the option string, and
    the argument attached to it, if any. *)
Definition option_tuple : Type := option Action * string * option string.

Definition get_option_tuples (p : Parser) (arg_string : string)
  : list option_tuple :=
  if is_long arg_string then
    let '(option_prefix, explicit_arg) :=
      match PyStr.split_once "=" arg_string with
      | Some (before, after) => (before, Some after)
      | None => (arg_string, None)
      end in
    omap (fun '(option_string, a) =>
            if PyStr.startswith option_string option_prefix
            then Some (Some a, option_string, explicit_arg) else None)
         (option_string_actions p)
  else
    let short_option_prefix := String.substring 0 2 arg_string in
    let short_explicit_arg :=
      String.substring 2 (String.length arg_string - 2) arg_string in
    omap (fun '(option_string, a) =>
            if String.eqb option_string short_option_prefix
            then Some (Some a, option_string, Some short_explicit_arg)
            else if PyStr.startswith option_string arg_string
            then Some (Some a, option_string, None) else None)
         (option_string_actions p).

(** [parser._negative_number_matcher], the regular expression
    [^-\d+$|^-\d*\.\d+$]. *)
Definition negative_number (arg_string : string) : bool :=
  match PyStr.chomp arg_string with
  | String "-" r =>
      (PyStr.bool r && PyStr.all_digits r)
      || match PyStr.split_once "." r with
         | Some (int_part, frac) =>
             PyStr.all_digits int_part && PyStr.bool frac && PyStr.all_digits frac
         | None => false
         end
  | _ => false
  end.

Inductive parsed_optional :=
| Positional
| Optional (t : option_tuple)
| Ambiguous.

(** [parser._parse_optional(arg_string)].  No option string of the
    parser looks like a negative number, so such arguments are
    positional. *)
Definition parse_optional (p : Parser) (arg_string : string) : parsed_optional :=
  match arg_string with
  | EmptyString => Positional
  | String c rest =>
      if negb (Ascii.eqb c "-") then Positional else
      match lookup_option p arg_string with
      | Some a => Optional (Some a, arg_string, None)
      | None =>
          match rest with
          | EmptyString => Positional
          | _ =>
              let by_equals :=
                '(option_string, explicit_arg) ← PyStr.split_once "=" arg_string;
                a ← lookup_option p option_string;
                Some (Some a, option_string, Some explicit_arg) in
              match by_equals with
              | Some t => Optional t
              | None =>
                  match get_option_tuples p arg_string with
                  | [t] => Optional t
                  | _ :: _ :: _ => Ambiguous
                  | [] =>
                      if negative_number arg_string then Positional
                      else if PyStr.contains " " arg_string then Positional
                      else Optional (None, arg_string, None)
                  end
              end
          end
      end
  end.

(** The argument strings pattern has ['A'] at an argument: one that is
    not the separator [--] and is not read as an option. *)
Definition is_A (p : Parser) (arg_string : string) : bool :=
  negb (String.eqb arg_string "--") &&
  match parse_optional p arg_string with Positional => true | _ => false end.

(** Building the pattern reports an ambiguous abbreviation at once, before
    any action is taken; arguments after [--] are not inspected. *)
Fixpoint has_ambiguous (p : Parser) (arg_strings : list string) : bool :=
  match arg_strings with
  | [] => false
  | arg_string :: rest =>
      if String.eqb arg_string "--" then false
      else match parse_optional p arg_string with
           | Ambiguous => true
           | _ => has_ambiguous p rest
           end
  end.

(** [parser._get_values(action, [arg_string])] for an action that takes
    one argument: a [--] is stripped first, which leaves no argument at
    all and yields the empty list. *)
Definition get_values (a : Action) (arg_string : string) : option value :=
  if String.eqb arg_string "--" then Some PyEmptyList
  else call_type (arg_type a) arg_string.

(** [take_action] for a store action: convert, then [setattr]. *)
Definition take_store (a : Action) (arg_string : string)
    (ns : Namespace) (seen : gset string) : option (Namespace * gset string) :=
  v ← get_values a arg_string;
  d ← dest a;
  Some (<[d := v]> ns, {[d]} ∪ seen).

(** The options packed after [-h] in one argument string, as in [-hcFILE].
    The help action runs first and exits, unless collecting the options
    already fails: on a character that is no option, or on a store option
    that is left without its argument. *)
Fixpoint help_cluster (p : Parser) (next_is_A : bool) (explicit_arg : string)
  : outcome :=
  match explicit_arg with
  | EmptyString => error
  | String c new_explicit_arg =>
      match lookup_option p (String "-" (String c EmptyString)) with
      | None => error
      | Some a =>
          match class a, new_explicit_arg with
          | StoreAction, EmptyString => if next_is_A then SystemExit 0 else error
          | StoreAction, _ => SystemExit 0
          | HelpAction, EmptyString => SystemExit 0
          | HelpAction, _ => help_cluster p next_is_A new_explicit_arg
          end
      end
  end.

(** The end of [parse_known_args] and [parse_args]: a string default of
    an action that was not seen, if the attribute still holds it, is
    converted by the action's [type]; left-over arguments are an error. *)
Definition convert_default (seen : gset string) (ns : option Namespace) (a : Action)
  : option Namespace :=
  ns ← ns;
  match dest a, arg_default a with
  | Some d, Some (PyStr s) =>
      if decide (d ∈ seen) then Some ns
      else if decide (ns !! d = Some (PyStr s)) then
        v ← call_type (arg_type a) s; Some (<[d := v]> ns)
      else Some ns
  | _, _ => Some ns
  end.

Definition finish (p : Parser) (ns : Namespace) (seen : gset string)
    (extras : bool) : outcome :=
  match foldl (convert_default seen) (Some ns) (actions p) with
  | None => error
  | Some ns' => if extras then error else Parsed ns'
  end.

(** The main loop of [_parse_known_args] for a parser without positional
    arguments.  [extras] tells whether some argument was left unconsumed.
    Nothing after a [--] that the loop meets can be consumed. *)
Fixpoint consume (p : Parser) (ns : Namespace) (seen : gset string)
    (extras : bool) (arg_strings : list string) : outcome :=
  match arg_strings with
  | [] => finish p ns seen extras
  | arg_string :: rest =>
      if String.eqb arg_string "--" then finish p ns seen true
      else
        match parse_optional p arg_string with
        | Positional => consume p ns seen true rest
        | Ambiguous => error
        | Optional (None, _, _) => consume p ns seen true rest
        | Optional (Some a, option_string, explicit_arg) =>
            match class a, explicit_arg with
            | StoreAction, Some arg =>
                match take_store a arg ns seen with
                | Some (ns', seen') => consume p ns' seen' extras rest
                | None => error
                end
            | StoreAction, None =>
                match rest with
                | arg :: rest' =>
                    if is_A p arg then
                      match take_store a arg ns seen with
                      | Some (ns', seen') => consume p ns' seen' extras rest'
                      | None => error
                      end
                    else error
                | [] => error
                end
            | HelpAction, None => SystemExit 0
            | HelpAction, Some arg =>
                if is_long option_string then error
                else help_cluster p (match rest with
                                     | arg' :: _ => is_A p arg'
                                     | [] => false
                                     end) arg
            end
        end
  end.

(** An argument string that the parser reads as the option whose
    attribute is [d]. *)
Definition selects (p : Parser) (d : string) (arg_string : string) : bool :=
  match parse_optional p arg_string with
  | Optional (Some a, _, _) => bool_decide (dest a = Some d)
  | _ => false
  end.

(** The command lines that [consume] accepts are sequences of store
    options, each with its argument attached ([--opt=ARG], [-oARG]) or as
    the next argument string ([--opt ARG]). *)
Inductive stores (p : Parser) :
    Namespace -> gset string -> list string -> Namespace -> Prop :=
| stores_nil ns seen ns' :
    finish p ns seen false = Parsed ns' ->
    stores p ns seen [] ns'
| stores_attached ns seen arg_string rest a option_string arg ns1 seen1 ns' :
    arg_string <> "--" ->
    parse_optional p arg_string = Optional (Some a, option_string, Some arg) ->
    class a = StoreAction ->
    take_store a arg ns seen = Some (ns1, seen1) ->
    stores p ns1 seen1 rest ns' ->
    stores p ns seen (arg_string :: rest) ns'
| stores_next ns seen arg_string arg rest a option_string ns1 seen1 ns' :
    arg_string <> "--" ->
    parse_optional p arg_string = Optional (Some a, option_string, None) ->
    class a = StoreAction ->
    is_A p arg = true ->
    take_store a arg ns seen = Some (ns1, seen1) ->
    stores p ns1 seen1 rest ns' ->
    stores p ns seen (arg_string :: arg :: rest) ns'.

(** The namespace before parsing: every action's default under its
    [dest]. *)
Definition set_default (ns : Namespace) (a : Action) : Namespace :=
  match dest a, arg_default a with
  | Some d, Some v => match ns !! d with None => <[d := v]> ns | Some _ => ns end
  | _, _ => ns
  end.

Definition initial_namespace (p : Parser) : Namespace :=
  foldl set_default ∅ (actions p).

(** [parser.parse_args(arg_strings)] *)
Definition parse_args (p : Parser) (arg_strings : list string) : outcome :=
  if has_ambiguous p arg_strings then error
  else consume p (initial_namespace p) ∅ false arg_strings.

End Argparse.

(** ** Configuration values *)

(** What a YAML settings file holds after loading. *)
#[warnings="-register-all"]
Inductive yaml :=
| YNull
| YBool (b : bool)
| YInt (z : Z)
| YStr (s : string)
| YList (l : list yaml)
| YDict (m : gmap string yaml).

(** The top level of a settings file: a mapping from section names
    ([speech_config], [decoder_config], [model_config],
    [learning_config]) to their contents. *)
Abbreviation settings := (gmap string yaml).

(** ** The configuration loader *)

Module user_config.

(** The settings files that exist, by path, each with the settings it
    holds. *)
Abbreviation files := (gmap string settings).

(** Modelled from the spec: [tiramisu_asr.configs.user_config.UserConfig]
    is not among the sources.  The loader takes the path of the default
    settings and an optional path of overriding settings and produces one
    merged structure, in which the override's value wins for each key it
    has; an override file that does not exist leaves the defaults.  The
    spec says nothing of the [learning] flag, which is carried along
    unused.  [None] stands for the error of a default file that cannot be
    read. *)
Definition UserConfig (fs : files) (default : string) (custom : option string)
    (learning : bool) : option settings :=
  defaults ← fs !! default;
  match custom ≫= (fs !!.) with
  | Some override => Some (override ∪ defaults)
  | None => Some defaults
  end.

End user_config.

(** ** The training driver, [examples/deepspeech2/train_ds2.py] *)

Module train_ds2.

Import Argparse.
Export user_config.

(** *** Objects of the libraries

    The classes of [tiramisu_asr] and the model class are not among the
    sources; an object is the record of the arguments it was constructed
    with, and the constructors and methods the driver calls are taken to
    return.  For a keyword argument that a call leaves out, the field is
    [None]. *)

Record TFSpeechFeaturizer := { speech_config : yaml }.

Record TextFeaturizer := { decoder_config : yaml }.

Inductive dataset_class := ASRTFRecordDataset | ASRSliceDataset.

Record Dataset := {
  cls : dataset_class;
  data_paths : yaml;
  tfrecords_dir : option yaml;
  ds_speech_featurizer : TFSpeechFeaturizer;
  ds_text_featurizer : TextFeaturizer;
  stage : string;
  augmentations : option yaml;
  shuffle : bool
}.

Record CTCTrainer := {
  tr_speech_featurizer : TFSpeechFeaturizer;
  tr_text_featurizer : TextFeaturizer;
  running_config : yaml;
  is_mixed_precision : value
}.

Record DeepSpeech2 := {
  input_shape : list (option Z);
  arch_config : yaml;
  num_classes : Z;
  name : string
}.

(** What the driver needs from the featurizers and is defined outside
    the sources: the feature dimensions that a speech featurizer computes
    and the number of classes of a text featurizer. *)
Record Library := {
  compute_feature_dim : TFSpeechFeaturizer -> Z * Z;
  text_num_classes : TextFeaturizer -> Z
}.

(** *** Effects

    The calls into the libraries that act on the process or construct an
    object, in the order the driver makes them. *)
Inductive event :=
| clear_session
| set_seed (seed : Z)
| new_policy (policy : string)
| set_policy (policy : string)
| print (s : string)
| new_speech_featurizer (f : TFSpeechFeaturizer)
| new_text_featurizer (f : TextFeaturizer)
| new_dataset (d : Dataset)
| new_trainer (t : CTCTrainer)
| scope_enter
| scope_exit
| new_model (m : DeepSpeech2)
| model_build (shape : list Z)
| trainer_compile (m : DeepSpeech2) (optimizer_config : yaml) (max_to_keep : value)
| trainer_fit (train_dataset eval_dataset : Dataset) (eval_train_ratio : value)
| model_save_weights (path : value)
| model_save (path : value).

Inductive exception :=
| Exit (code : Z)
| KeyError (key : string)
| TypeError
| AttributeError (attr : string)
| OSError (path : string).

(** A computation yields the events it performed, and then a value or
    the exception that ended it. *)
Definition M (A : Type) : Type := list event * (exception + A).

#[global] Instance M_ret : MRet M := fun A a => ([], inr a).

#[global] Instance M_bind : MBind M := fun A B f m =>
  match m with
  | (t, inl x) => (t, inl x)
  | (t, inr a) => let '(t', r) := f a in ((t ++ t')%list, r)
  end.

Definition call (e : event) : M unit := ([e], inr tt).

Definition raise {A} (x : exception) : M A := ([], inl x).

Definition trace {A} (m : M A) : list event := m.1.

Definition result {A} (m : M A) : exception + A := m.2.

(** [with ctc_trainer.strategy.scope(): body]: the scope is left also
    when the body raises. *)
Definition with_scope {A} (body : M A) : M A :=
  let '(t, r) := body in ((scope_enter :: t ++ [scope_exit])%list, r).

(** [container[key]] *)
Definition getitem (container : yaml) (key : string) : M yaml :=
  match container with
  | YDict m => match m !! key with
               | Some v => mret v
               | None => raise (KeyError key)
               end
  | _ => raise TypeError
  end.

(** [container[key1][key2]...] *)
Definition getitems (container : yaml) (keys : list string) : M yaml :=
  foldl (fun m key => m ≫= fun c => getitem c key) (mret container) keys.

(** [args.attr] *)
Definition getattr (args : Namespace) (attr : string) : M value :=
  match args !! attr with
  | Some v => mret v
  | None => raise (AttributeError attr)
  end.

(** Python's truth value of a namespace attribute. *)
Definition truthy (v : value) : bool :=
  match v with
  | PyNone => false
  | PyBool b => b
  | PyInt z => negb (z =? 0)
  | PyStr s => PyStr.bool s
  | PyEmptyList => false
  end.

(** [os.path.join(a, b)] on POSIX paths *)
Definition path_join (a b : string) : string :=
  if PyStr.startswith b "/" then b
  else match a with
       | EmptyString => b
       | _ => if String.eqb (String.substring (String.length a - 1) 1 a) "/"
              then a ++ b else a ++ "/" ++ b
       end.

(** [DEFAULT_YAML], from the directory that holds the script,
    [os.path.abspath(os.path.dirname(__file__))]. *)
Definition DEFAULT_YAML (script_dir : string) : string :=
  path_join (path_join script_dir "configs") "vivos.yml".

(** The parser that [main] builds. *)
Definition parser (script_dir : string) : Parser :=
  let parser := ArgumentParser "Deep Speech 2 Training" in
  let parser := add_argument ["--config"; "-c"] type_str
                  (PyStr (DEFAULT_YAML script_dir))
                  "The file path of model configuration file" parser in
  let parser := add_argument ["--export"; "-e"] type_str PyNone
                  "Path to the model file to be exported" parser in
  let parser := add_argument ["--mixed_precision"] type_bool (PyBool false)
                  "Whether to use mixed precision training" parser in
  let parser := add_argument ["--save_weights"] type_bool (PyBool false)
                  "Whether to save or load only weights" parser in
  let parser := add_argument ["--max_ckpts"] type_int (PyInt 10)
                  "Max number of checkpoints to keep" parser in
  let parser := add_argument ["--eval_train_ratio"] type_int (PyInt 1)
                  "ratio between train batch size and eval batch size" parser in
  let parser := add_argument ["--tfrecords"] type_bool (PyBool false)
                  "Whether to use tfrecords dataset" parser in
  parser.

(** [parser.parse_args()]: the namespace, or the exit that [argparse]
    performs for [--help] and for a command line it rejects. *)
Definition parse (p : Parser) (argv : list string) : M Namespace :=
  match parse_args p argv with
  | Parsed ns => mret ns
  | SystemExit code => raise (Exit code)
  end.

(** [UserConfig(default, custom, learning=True)] with [custom] a
    namespace attribute: a string is a path, anything but a string or
    [None] is no path at all. *)
Definition load_config (fs : files) (default : string) (custom : value)
  : M yaml :=
  custom_path ← match custom with
                | PyStr s => mret (Some s)
                | PyNone => mret None
                | _ => raise TypeError
                end;
  match UserConfig fs default custom_path true with
  | Some config => mret (YDict config)
  | None => raise (OSError default)
  end.

(** [main()], statement by statement.  [argv] is [sys.argv[1:]], [fs] the
    settings files on disk. *)
Definition main (lib : Library) (script_dir : string) (fs : files)
    (argv : list string) : M unit :=
  _ ← call clear_session;
  args ← parse (parser script_dir) argv;
  args_config ← getattr args "config";
  config ← load_config fs (DEFAULT_YAML script_dir) args_config;
  speech_cfg ← getitem config "speech_config";
  let speech_featurizer := {| speech_config := speech_cfg |} in
  _ ← call (new_speech_featurizer speech_featurizer);
  decoder_cfg ← getitem config "decoder_config";
  let text_featurizer := {| decoder_config := decoder_cfg |} in
  _ ← call (new_text_featurizer text_featurizer);
  _ ← call (set_seed 2020);
  mixed_precision ← getattr args "mixed_precision";
  _ ← (if truthy mixed_precision then
         _ ← call (new_policy "mixed_float16");
         _ ← call (set_policy "mixed_float16");
         call (print "Enabled mixed precision training")
       else mret tt);
  tfrecords ← getattr args "tfrecords";
  '(train_dataset, eval_dataset) ←
    (if truthy tfrecords then
       train_paths ← (getitems config ["learning_config"; "dataset_config"; "train_paths"]);
       train_dir ← (getitems config ["learning_config"; "dataset_config"; "tfrecords_dir"]);
       train_aug ← (getitems config ["learning_config"; "augmentations"]);
       let train_dataset :=
         {| cls := ASRTFRecordDataset; data_paths := train_paths;
            tfrecords_dir := Some train_dir;
            ds_speech_featurizer := speech_featurizer;
            ds_text_featurizer := text_featurizer; stage := "train";
            augmentations := Some train_aug; shuffle := true |} in
       _ ← call (new_dataset train_dataset);
       eval_paths ← (getitems config ["learning_config"; "dataset_config"; "eval_paths"]);
       eval_dir ← (getitems config ["learning_config"; "dataset_config"; "tfrecords_dir"]);
       let eval_dataset :=
         {| cls := ASRTFRecordDataset; data_paths := eval_paths;
            tfrecords_dir := Some eval_dir;
            ds_speech_featurizer := speech_featurizer;
            ds_text_featurizer := text_featurizer; stage := "eval";
            augmentations := None; shuffle := false |} in
       _ ← call (new_dataset eval_dataset);
       mret (train_dataset, eval_dataset)
     else
       train_data_paths ←
         (getitems config ["learning_config"; "dataset_config"; "eval_paths"]);
       train_aug ← (getitems config ["learning_config"; "augmentations"]);
       let train_dataset :=
         {| cls := ASRSliceDataset; data_paths := train_data_paths;
            tfrecords_dir := None;
            ds_speech_featurizer := speech_featurizer;
            ds_text_featurizer := text_featurizer; stage := "train";
            augmentations := Some train_aug; shuffle := true |} in
       _ ← call (new_dataset train_dataset);
       eval_data_paths ←
         (getitems config ["learning_config"; "dataset_config"; "eval_paths"]);
       let eval_dataset :=
         {| cls := ASRSliceDataset; data_paths := eval_data_paths;
            tfrecords_dir := None;
            ds_speech_featurizer := speech_featurizer;
            ds_text_featurizer := text_featurizer; stage := "train";
            augmentations := None; shuffle := true |} in
       _ ← call (new_dataset eval_dataset);
       mret (train_dataset, eval_dataset));
  run_cfg ← (getitems config ["learning_config"; "running_config"]);
  trainer_mixed ← getattr args "mixed_precision";
  let ctc_trainer :=
    {| tr_speech_featurizer := speech_featurizer;
       tr_text_featurizer := text_featurizer;
       running_config := run_cfg; is_mixed_precision := trainer_mixed |} in
  _ ← call (new_trainer ctc_trainer);
  let '(f, c) := compute_feature_dim lib speech_featurizer in
  ds2_model ← with_scope (
    model_cfg ← getitem config "model_config";
    let ds2_model :=
      {| input_shape := [None; Some f; Some c]; arch_config := model_cfg;
         num_classes := text_num_classes lib text_featurizer;
         name := "deepspeech2" |} in
    _ ← call (new_model ds2_model);
    _ ← call (model_build [1; 50; f; c]);
    mret ds2_model);
  optimizer_cfg ← (getitems config ["learning_config"; "optimizer_config"]);
  max_ckpts ← getattr args "max_ckpts";
  _ ← call (trainer_compile ds2_model optimizer_cfg max_ckpts);
  eval_train_ratio ← getattr args "eval_train_ratio";
  _ ← call (trainer_fit train_dataset eval_dataset eval_train_ratio);
  export ← getattr args "export";
  if truthy export then
    save_weights ← getattr args "save_weights";
    if truthy save_weights then
      export ← getattr args "export";
      call (model_save_weights export)
    else
      export ← getattr args "export";
      call (model_save export)
  else mret tt.

(** *** Observations on a run *)

(** The datasets a run constructed, in order: the training dataset, then
    the evaluation dataset. *)
Definition constructed_datasets (t : list event) : list Dataset :=
  omap (fun e => match e with new_dataset d => Some d | _ => None end) t.

(** The construction of a dataset or of the model. *)
Definition is_construction (e : event) : bool :=
  match e with
  | new_dataset _ | new_model _ | model_build _ => true
  | _ => false
  end.

(** No seed but 2020 is set, and nothing is constructed before the seed
    is set; [seeded] tells whether it has been set already. *)
Fixpoint seeded_first (seeded : bool) (t : list event) : bool :=
  match t with
  | [] => true
  | set_seed z :: t' => (z =? 2020) && seeded_first true t'
  | e :: t' => (negb (is_construction e) || seeded) && seeded_first seeded t'
  end.

Definition eval_paths_keys : list string :=
  ["learning_config"; "dataset_config"; "eval_paths"].

Definition train_paths_keys : list string :=
  ["learning_config"; "dataset_config"; "train_paths"].

(** *** The command line interface, as the specification lists it *)

(** Attribute, type and default of each flag. *)
Definition declared (script_dir : string) : list (string * type_func * value) :=
  [("config", type_str, PyStr (DEFAULT_YAML script_dir));
   ("export", type_str, PyNone);
   ("mixed_precision", type_bool, PyBool false);
   ("save_weights", type_bool, PyBool false);
   ("max_ckpts", type_int, PyInt 10);
   ("eval_train_ratio", type_int, PyInt 1);
   ("tfrecords", type_bool, PyBool false)].

Definition attributes : gset string :=
  {["config"; "export"; "mixed_precision"; "save_weights"; "max_ckpts";
    "eval_train_ratio"; "tfrecords"]}.

(** The namespace of a command line that gives no flag. *)
Definition defaults (script_dir : string) : Namespace :=
  list_to_map (map (fun '(d, _, v) => (d, v)) (declared script_dir)).

Definition bool_flags : list string :=
  ["mixed_precision"; "save_weights"; "tfrecords"].

(** The command line gives the empty string to the flag stored under
    [d]: as the argument after the option, or attached to it. *)
Definition supplies_empty (p : Parser) (d : string) (argv : list string) : Prop :=
  (exists pre o post a os,
      argv = (pre ++ o :: "" :: post)%list /\
      parse_optional p o = Optional (Some a, os, None) /\ dest a = Some d)
  \/ (exists o a os,
      o ∈ argv /\ parse_optional p o = Optional (Some a, os, Some "") /\
      dest a = Some d).

(** The command line attaches the separator [--] as the value of the flag
    stored under [d], as in [--flag=--]. *)
Definition supplies_separator (p : Parser) (d : string) (argv : list string)
  : Prop :=
  exists o a os,
    o ∈ argv /\ parse_optional p o = Optional (Some a, os, Some "--") /\
    dest a = Some d.

(** *** An environment to run the driver in

    A repository at [/repo] whose bundled settings name different files
    for training and for evaluation, and featurizers of 80 frequency bins,
    one channel and 29 classes. *)
Definition example_settings : settings :=
  <["speech_config" := YDict ∅]> (
  <["decoder_config" := YDict ∅]> (
  <["model_config" := YDict ∅]> (
  <["learning_config" := YDict (
      <["dataset_config" := YDict (
          <["train_paths" := YList [YStr "train.tsv"]]> (
          <["eval_paths" := YList [YStr "eval.tsv"]]> (
          <["tfrecords_dir" := YStr "/tmp/records"]> ∅)))]> (
      <["augmentations" := YDict ∅]> (
      <["running_config" := YDict ∅]> (
      <["optimizer_config" := YDict ∅]> ∅))))]> ∅))).

Definition example_files : files :=
  <[DEFAULT_YAML "/repo" := example_settings]> ∅.

Definition example_lib : Library :=
  {| compute_feature_dim := fun _ => (80, 1);
     text_num_classes := fun _ => 29 |}.

End train_ds2.

(** ** The text featurizer *)

Module text_featurizers.

(** Modelled from the spec:
    [tiramisu_asr.featurizers.text_featurizers.TextFeaturizer] is not
    among the sources.  A vocabulary is an ordered sequence of tokens, the
    id of a token being its position in the sequence, with the blank
    symbol at a fixed position, the first or the last. *)
Record Vocabulary := {
  vocab_array : list string;
  blank_at_zero : bool
}.

Definition num_classes (v : Vocabulary) : nat := length (vocab_array v).

Definition blank (v : Vocabulary) : nat :=
  if blank_at_zero v then 0%nat else (num_classes v - 1)%nat.

(** [tokens.index(token)] *)
Fixpoint index (token : string) (tokens : list string) : option nat :=
  match tokens with
  | [] => None
  | t :: tokens' =>
      if String.eqb token t then Some 0%nat else S <$> index token tokens'
  end.

Definition token_to_id (v : Vocabulary) (token : string) : option nat :=
  index token (vocab_array v).

Definition id_to_token (v : Vocabulary) (id : nat) : option string :=
  vocab_array v !! id.

(** The tokens of a text: its characters. *)
Fixpoint characters (text : string) : list string :=
  match text with
  | EmptyString => []
  | String c text' => String c EmptyString :: characters text'
  end.

(** Modelled from the spec: [encode(text)] is the sequence of the ids of
    the text's tokens, by the vocabulary's token-to-id mapping; [None]
    when a token is not in the vocabulary. *)
Definition encode (v : Vocabulary) (text : string) : option (list nat) :=
  mapM (token_to_id v) (characters text).

(** Modelled from the spec: [decode(ids)] is the text of the tokens that
    the ids stand for; [None] when an id is not below [num_classes]. *)
Definition decode (v : Vocabulary) (ids : list nat) : option string :=
  foldr String.append EmptyString <$> mapM (id_to_token v) ids.

(** A text composed solely of vocabulary tokens. *)
Definition composed_of (v : Vocabulary) (text : string) : Prop :=
  Forall (fun token => token ∈ vocab_array v) (characters text).

(** The vocabulary of the specification's example scenario. *)
Definition example_vocabulary : Vocabulary :=
  {| vocab_array := ["<blank>"; "a"; "b"]; blank_at_zero := true |}.

End text_featurizers.

(** ** Checkpoints *)

Module checkpoints.

(** Modelled from the spec: the checkpoint manager that
    [CTCTrainer.compile] sets up with [max_to_keep] is not among the
    sources.  Checkpoints are numbered as they are saved, [ckpt-1],
    [ckpt-2] and so on; [kept] lists the ones on disk, oldest first. *)
Record Manager := {
  max_to_keep : nat;
  last_saved : nat;
  kept : list nat
}.

Definition new_manager (max_ckpts : nat) : Manager :=
  {| max_to_keep := max_ckpts; last_saved := 0%nat; kept := [] |}.

(** Modelled from the spec: a save creates the next checkpoint and then
    prunes the oldest ones, down to the maximum retained count. *)
Definition save (m : Manager) : Manager :=
  let n := S (last_saved m) in
  let on_disk := (kept m ++ [n])%list in
  {| max_to_keep := max_to_keep m; last_saved := n;
     kept := drop (length on_disk - max_to_keep m)%nat on_disk |}.

Definition saves (N : nat) (m : Manager) : Manager := Nat.iter N save m.

(** The [count] most recent of the checkpoints [ckpt-1] to [ckpt-N]. *)
Definition most_recent (count N : nat) : list nat :=
  seq (S (N - count)%nat) count.

End checkpoints.

(** ** Further observations on a run of the driver *)

Module run_facts.

Import Argparse train_ds2.

(** What enabling mixed precision does. *)
Definition policy_events : list event :=
  [new_policy "mixed_float16"; set_policy "mixed_float16";
   print "Enabled mixed precision training"].

Definition is_save (e : event) : bool :=
  match e with
  | model_save _ | model_save_weights _ => true
  | _ => false
  end.

(** What concerns the distribution strategy's scope: entering it,
    leaving it, and what [main] does inside. *)
Definition is_scope_event (e : event) : bool :=
  match e with
  | scope_enter | scope_exit | new_model _ | model_build _ => true
  | _ => false
  end.

End run_facts.

(** * Properties *)

(** ** The argument parser *)

Section argparse_facts.

Import Argparse.

Variable p : Parser.

Lemma finish_extras ns seen ns' : finish p ns seen true <> Parsed ns'.
Proof. unfold finish. destruct (foldl _ _ _); discriminate. Qed.

(** A cluster that starts with [-h] never yields a namespace. *)
Lemma help_cluster_exits b arg ns' : help_cluster p b arg <> Parsed ns'.
Proof.
  induction arg as [|c arg IHa]; simpl; [discriminate|].
  destruct (lookup_option p _) as [a'|]; [|discriminate].
  destruct (class a'), arg; try discriminate; try (destruct b; discriminate).
  apply IHa.
Qed.

(** A command line that [consume] accepts leaves no argument over and is
    a sequence of store options. *)
Lemma consume_stores : forall n argv, (length argv <= n)%nat ->
  forall ns seen extras ns',
  consume p ns seen extras argv = Parsed ns' ->
  extras = false /\ stores p ns seen argv ns'.
Proof.
  induction n as [|n IH]; intros argv Hlen ns seen extras ns' H.
  - destruct argv; [|simpl in Hlen; lia]. simpl in H.
    destruct extras; [by apply finish_extras in H|].
    split; [done|by constructor].
  - destruct argv as [|s rest].
    { simpl in H. destruct extras; [by apply finish_extras in H|].
      split; [done|by constructor]. }
    simpl in H, Hlen.
    destruct (String.eqb s "--") eqn:Hdd; [by apply finish_extras in H|].
    apply String.eqb_neq in Hdd.
    destruct (parse_optional p s) as [|[[[a|] os] expl]|] eqn:Hpo; try discriminate.
    + apply IH in H; [|lia]. by destruct H.
    + destruct (class a) eqn:Hc, expl as [arg|]; try discriminate.
      * destruct (take_store a arg ns seen) as [[ns1 seen1]|] eqn:Ht; [|discriminate].
        apply IH in H; [|lia]. destruct H as [-> H]. split; [done|].
        eapply stores_attached; eauto.
      * destruct rest as [|arg rest']; [discriminate|].
        destruct (is_A p arg) eqn:HA; [|discriminate].
        destruct (take_store a arg ns seen) as [[ns1 seen1]|] eqn:Ht; [|discriminate].
        apply IH in H; [|simpl in Hlen; lia]. destruct H as [-> H]. split; [done|].
        eapply stores_next; eauto.
      * destruct (is_long os); [discriminate|].
        by apply help_cluster_exits in H.
    + apply IH in H; [|lia]. by destruct H.
Qed.

Lemma parse_args_stores argv ns :
  parse_args p argv = Parsed ns -> stores p (initial_namespace p) ∅ argv ns.
Proof.
  unfold parse_args. destruct (has_ambiguous p argv); [done|].
  intros H. by eapply consume_stores in H as [_ H].
Qed.

Lemma assoc_elem {A} k (l : list (string * A)) v :
  assoc k l = Some v -> (k, v) ∈ l.
Proof.
  induction l as [|[k' v'] l IH]; simpl; [done|].
  destruct (String.eqb k k') eqn:E.
  - apply String.eqb_eq in E as ->. intros [= ->]. left.
  - intros H. right. by apply IH.
Qed.

Lemma option_string_actions_elem os a :
  (os, a) ∈ option_string_actions p -> a ∈ actions p /\ os ∈ option_strings a.
Proof.
  unfold option_string_actions. rewrite list_elem_of_In, in_flat_map.
  intros (a' & Ha' & Hin). rewrite in_map_iff in Hin.
  destruct Hin as (s & [= <- <-] & Hs). by rewrite !list_elem_of_In.
Qed.

Lemma lookup_option_elem os a :
  lookup_option p os = Some a -> a ∈ actions p /\ os ∈ option_strings a.
Proof. intros H. by apply option_string_actions_elem, assoc_elem. Qed.

Lemma get_option_tuples_elem s a os e :
  (Some a, os, e) ∈ get_option_tuples p s -> a ∈ actions p /\ os ∈ option_strings a.
Proof.
  unfold get_option_tuples. destruct (is_long s).
  - destruct (match PyStr.split_once "=" s with Some _ => _ | None => _ end) as [pre ex].
    rewrite list_elem_of_omap. intros ([os' a'] & Hin & Hf).
    destruct (PyStr.startswith os' pre); [|done]. injection Hf as <- <- <-.
    by apply option_string_actions_elem.
  - rewrite list_elem_of_omap. intros ([os' a'] & Hin & Hf).
    destruct (String.eqb os' _); [|destruct (PyStr.startswith os' s); [|done]];
      injection Hf as <- <- <-; by apply option_string_actions_elem.
Qed.

(** The action that an argument string is read as is one of the parser's. *)
Lemma parse_optional_elem s a os e :
  parse_optional p s = Optional (Some a, os, e) ->
  a ∈ actions p /\ os ∈ option_strings a.
Proof.
  unfold parse_optional. destruct s as [|c rest]; [done|].
  destruct (negb _); [done|].
  destruct (lookup_option p (String c rest)) as [a'|] eqn:El.
  { intros [= <- <- <-]. by apply lookup_option_elem. }
  destruct rest as [|c' rest]; [done|].
  destruct (PyStr.split_once "=" _) as [[o ex]|]; cbn [mbind option_bind].
  - destruct (lookup_option p o) as [a'|] eqn:El'; cbn [mbind option_bind].
    { intros [= <- <- <-]. by apply lookup_option_elem. }
    destruct (get_option_tuples p _) as [|t [|t' l]] eqn:Et; [| |done].
    + by repeat case_match.
    + intros [= ->]. eapply get_option_tuples_elem. rewrite Et. left.
  - destruct (get_option_tuples p _) as [|t [|t' l]] eqn:Et; [| |done].
    + by repeat case_match.
    + intros [= ->]. eapply get_option_tuples_elem. rewrite Et. left.
Qed.

Lemma take_store_Some a arg ns seen ns1 seen1 :
  take_store a arg ns seen = Some (ns1, seen1) ->
  exists d v, dest a = Some d /\ get_values a arg = Some v /\
              ns1 = <[d := v]> ns /\ seen1 = {[d]} ∪ seen.
Proof.
  unfold take_store. destruct (get_values a arg) as [v|]; [|done].
  destruct (dest a) as [d|]; [|done]. cbn. intros [= <- <-]. eauto 10.
Qed.

Lemma get_values_bool a s :
  arg_type a = type_bool ->
  get_values a s = Some (if String.eqb s "--" then PyEmptyList else PyBool (PyStr.bool s)).
Proof. unfold get_values. intros ->. by destruct (String.eqb s "--"). Qed.

Lemma get_values_bool_false a arg :
  arg_type a = type_bool -> get_values a arg = Some (PyBool false) -> arg = "".
Proof.
  intros Ht. rewrite get_values_bool by done.
  destruct (String.eqb arg "--"); [done|]. by destruct arg.
Qed.

Lemma is_A_not_separator s : is_A p s = true -> String.eqb s "--" = false.
Proof. unfold is_A. by destruct (String.eqb s "--"). Qed.

Lemma is_A_positional s : is_A p s = true -> parse_optional p s = Positional.
Proof.
  unfold is_A. destruct (String.eqb s "--"); [done|].
  by destruct (parse_optional p s).
Qed.

(** An argument that does not start with a dash is never read as an
    option. *)
Lemma no_dash_is_A s : PyStr.startswith s "-" = false -> is_A p s = true.
Proof.
  destruct s as [|c s]; [reflexivity|]. cbn [PyStr.startswith].
  destruct (Ascii.eqb "-" c) eqn:E; [destruct s; discriminate|]. intros _.
  assert (Ascii.eqb c "-" = false) as E' by (rewrite Ascii.eqb_sym; exact E).
  unfold is_A.
  assert (String.eqb (String c s) "--" = false) as ->.
  { cbn [String.eqb]. rewrite E'. reflexivity. }
  assert (parse_optional p (String c s) = Positional) as ->.
  { unfold parse_optional. rewrite E'. reflexivity. }
  reflexivity.
Qed.

Lemma selects_false_dest d s a os e :
  selects p d s = false -> parse_optional p s = Optional (Some a, os, e) ->
  dest a <> Some d.
Proof.
  unfold selects. intros Hs Hpo. rewrite Hpo in Hs.
  by apply bool_decide_eq_false in Hs.
Qed.

(** Every string of an accepted command line is a store option or the
    argument of one. *)
Lemma stores_elements ns seen argv ns' :
  stores p ns seen argv ns' ->
  Forall (fun s => (exists a os e, parse_optional p s = Optional (Some a, os, e)
                                   /\ class a = StoreAction)
                   \/ is_A p s = true) argv.
Proof.
  induction 1 as [|ns seen s rest a os arg ns1 seen1 ns' _ Hpo Hc _ _ IH
                 |ns seen s arg rest a os ns1 seen1 ns' _ Hpo Hc HA _ _ IH].
  - apply Forall_nil_2.
  - apply Forall_cons_2; [|exact IH]. left. by exists a, os, (Some arg).
  - apply Forall_cons_2; [|apply Forall_cons_2; [|exact IH]].
    + left. by exists a, os, None.
    + by right.
Qed.

Lemma convert_default_str seen ns a :
  (forall s, arg_default a = Some (PyStr s) -> arg_type a = type_str) ->
  convert_default seen (Some ns) a = Some ns.
Proof.
  intros Hty. unfold convert_default. cbn [mbind option_bind].
  destruct (dest a) as [d|]; [|done].
  destruct (arg_default a) as [[| | |s|]|]; try done.
  destruct (decide (d ∈ seen)); [done|].
  destruct (decide (ns !! d = Some (PyStr s))) as [E|]; [|done].
  rewrite (Hty s eq_refl). cbn. by rewrite insert_id.
Qed.

(** Converting the defaults changes nothing when the string defaults are
    those of [type=str] arguments. *)
Lemma finish_str_defaults ns seen :
  Forall (fun a => forall s, arg_default a = Some (PyStr s) -> arg_type a = type_str)
         (actions p) ->
  finish p ns seen false = Parsed ns.
Proof.
  intros Hall. unfold finish.
  assert (foldl (convert_default seen) (Some ns) (actions p) = Some ns) as ->; [|done].
  induction Hall as [|a acts Ha _ IH]; [done|].
  cbn [foldl]. by rewrite convert_default_str.
Qed.

End argparse_facts.

(** ** The command line of the training driver *)

Section cli_facts.

Import Argparse train_ds2.

Variable script_dir : string.

Lemma initial_namespace_parser :
  initial_namespace (parser script_dir) = defaults script_dir.
Proof.
  unfold defaults, declared, parser.
  generalize (DEFAULT_YAML script_dir). intros default_yaml.
  match goal with |- _ = ?r => vm_cast_no_check (eq_refl r) end.
Qed.

Lemma dom_defaults : dom (defaults script_dir) = attributes.
Proof.
  unfold defaults, declared.
  generalize (DEFAULT_YAML script_dir). intros default_yaml.
  match goal with |- _ = ?r => vm_cast_no_check (eq_refl r) end.
Qed.

Lemma finish_parser ns seen : finish (parser script_dir) ns seen false = Parsed ns.
Proof.
  apply finish_str_defaults.
  unfold parser, add_argument, ArgumentParser. cbn [actions app].
  repeat apply Forall_cons_2; try apply Forall_nil_2; cbn; congruence.
Qed.

Lemma actions_parser_dest a d :
  a ∈ actions (parser script_dir) -> dest a = Some d ->
  class a = StoreAction /\
  exists v, arg_default a = Some v /\ (d, arg_type a, v) ∈ declared script_dir.
Proof.
  unfold parser, add_argument, ArgumentParser. cbn [actions app].
  rewrite !elem_of_cons, elem_of_nil.
  intros [->|[->|[->|[->|[->|[->|[->|[->|[]]]]]]]]]; cbn; intros [= <-];
    (split; [done|]); eexists; (split; [done|]); unfold declared;
    rewrite !elem_of_cons; tauto.
Qed.

Lemma declared_attributes d t v : (d, t, v) ∈ declared script_dir -> d ∈ attributes.
Proof.
  unfold declared, attributes. rewrite !elem_of_cons, elem_of_nil.
  rewrite !elem_of_union, !elem_of_singleton.
  intros [[= -> _ _]|[[= -> _ _]|[[= -> _ _]|[[= -> _ _]|[[= -> _ _]
         |[[= -> _ _]|[[= -> _ _]|[]]]]]]]]; tauto.
Qed.

Lemma defaults_lookup d t v :
  (d, t, v) ∈ declared script_dir -> defaults script_dir !! d = Some v.
Proof.
  unfold declared. rewrite !elem_of_cons, elem_of_nil.
  intros [[= -> _ ->]|[[= -> _ ->]|[[= -> _ ->]|[[= -> _ ->]|[[= -> _ ->]
         |[[= -> _ ->]|[[= -> _ ->]|[]]]]]]]]; reflexivity.
Qed.

Lemma bool_flag_type flag a :
  flag ∈ bool_flags -> a ∈ actions (parser script_dir) -> dest a = Some flag ->
  arg_type a = type_bool.
Proof.
  intros Hf Ha Hd. destruct (actions_parser_dest _ _ Ha Hd) as (_ & v & _ & Hin).
  revert Hf Hin. unfold bool_flags, declared. rewrite !elem_of_cons, !elem_of_nil.
  intros [->|[->|[->|[]]]] [H|[H|[H|[H|[H|[H|[H|[]]]]]]]]; by injection H.
Qed.

(** How the parser reads a boolean flag, alone and with an attached
    argument. *)
Lemma bool_flag_option flag :
  flag ∈ bool_flags ->
  exists a,
    parse_optional (parser script_dir) ("--" ++ flag)
      = Optional (Some a, "--" ++ flag, None)
    /\ (forall s, parse_optional (parser script_dir) ("--" ++ flag ++ "=" ++ s)
                  = Optional (Some a, "--" ++ flag, Some s))
    /\ String.eqb ("--" ++ flag) "--" = false
    /\ (forall s, String.eqb ("--" ++ flag ++ "=" ++ s) "--" = false)
    /\ dest a = Some flag /\ class a = StoreAction /\ arg_type a = type_bool.
Proof.
  unfold bool_flags. rewrite !elem_of_cons, elem_of_nil.
  intros [->|[->|[->|[]]]]; eexists; (split; [reflexivity|]);
    (split; [intros s; reflexivity|]); done.
Qed.

Lemma stores_dom ns seen argv ns' :
  stores (parser script_dir) ns seen argv ns' ->
  dom ns = attributes -> dom ns' = attributes.
Proof.
  induction 1 as [ns seen ns' Hf|ns seen s rest a os arg ns1 seen1 ns' _ Hpo _ Ht _ IH
                 |ns seen s arg rest a os ns1 seen1 ns' _ Hpo _ _ Ht _ IH]; intros Hdom.
  - rewrite finish_parser in Hf. by injection Hf as <-.
  - apply IH. apply take_store_Some in Ht as (d & v & Hd & _ & -> & _).
    apply parse_optional_elem in Hpo as [Ha _].
    destruct (actions_parser_dest _ _ Ha Hd) as (_ & v' & _ & Hin).
    apply declared_attributes in Hin. rewrite dom_insert_L, Hdom.
    by apply subseteq_union_1_L, singleton_subseteq_l.
  - apply IH. apply take_store_Some in Ht as (d & v & Hd & _ & -> & _).
    apply parse_optional_elem in Hpo as [Ha _].
    destruct (actions_parser_dest _ _ Ha Hd) as (_ & v' & _ & Hin).
    apply declared_attributes in Hin. rewrite dom_insert_L, Hdom.
    by apply subseteq_union_1_L, singleton_subseteq_l.
Qed.

Lemma parse_args_dom argv ns :
  parse_args (parser script_dir) argv = Parsed ns -> dom ns = attributes.
Proof.
  intros H%parse_args_stores. eapply stores_dom; [done|].
  rewrite initial_namespace_parser. apply dom_defaults.
Qed.

Lemma stores_omitted ns seen argv ns' d v :
  stores (parser script_dir) ns seen argv ns' ->
  Forall (fun s => selects (parser script_dir) d s = false) argv ->
  ns !! d = Some v -> ns' !! d = Some v.
Proof.
  induction 1 as [ns seen ns' Hf|ns seen s rest a os arg ns1 seen1 ns' _ Hpo _ Ht _ IH
                 |ns seen s arg rest a os ns1 seen1 ns' _ Hpo _ _ Ht _ IH];
    intros Hom Hd.
  - rewrite finish_parser in Hf. by injection Hf as <-.
  - apply Forall_cons in Hom as [Hs Hom]. apply IH; [done|].
    apply take_store_Some in Ht as (d' & v' & Hd' & _ & -> & _).
    rewrite lookup_insert_ne; [done|].
    intros ->. by eapply selects_false_dest.
  - apply Forall_cons in Hom as [Hs Hom]. apply Forall_cons in Hom as [_ Hom].
    apply IH; [done|].
    apply take_store_Some in Ht as (d' & v' & Hd' & _ & -> & _).
    rewrite lookup_insert_ne; [done|].
    intros ->. by eapply selects_false_dest.
Qed.

Lemma parse_args_omitted argv ns d t v :
  (d, t, v) ∈ declared script_dir ->
  parse_args (parser script_dir) argv = Parsed ns ->
  Forall (fun s => selects (parser script_dir) d s = false) argv ->
  ns !! d = Some v.
Proof.
  intros Hin H%parse_args_stores Hom. eapply stores_omitted; [done..|].
  rewrite initial_namespace_parser. by eapply defaults_lookup.
Qed.

Lemma bool_flag_next flag s :
  flag ∈ bool_flags -> is_A (parser script_dir) s = true ->
  parse_args (parser script_dir) ["--" ++ flag; s]
  = Parsed (<[flag := PyBool (PyStr.bool s)]> (defaults script_dir)).
Proof.
  intros Hf HA.
  destruct (bool_flag_option flag Hf) as (a & Hpo & _ & Hdd & _ & Hd & Hc & Ht).
  unfold parse_args. cbn [has_ambiguous]. rewrite Hdd, Hpo.
  rewrite (is_A_not_separator _ _ HA), (is_A_positional _ _ HA).
  cbn [consume]. rewrite Hdd, Hpo, Hc, HA.
  unfold take_store. rewrite get_values_bool, (is_A_not_separator _ _ HA), Hd by done.
  cbn [mbind option_bind].
  by rewrite finish_parser, initial_namespace_parser.
Qed.

Lemma bool_flag_attached flag s :
  flag ∈ bool_flags -> s <> "--" ->
  parse_args (parser script_dir) ["--" ++ flag ++ "=" ++ s]
  = Parsed (<[flag := PyBool (PyStr.bool s)]> (defaults script_dir)).
Proof.
  intros Hf Hs.
  destruct (bool_flag_option flag Hf) as (a & _ & Hpo & _ & Hdd & Hd & Hc & Ht).
  apply String.eqb_neq in Hs.
  unfold parse_args. cbn [has_ambiguous consume]. rewrite Hdd, Hpo, Hc.
  unfold take_store. rewrite get_values_bool, Hs, Hd by done.
  cbn [mbind option_bind].
  by rewrite finish_parser, initial_namespace_parser.
Qed.

(** The option that ends a command line decides the attribute. *)
Lemma stores_last_next o os flag a s ns seen argv ns' :
  parse_optional (parser script_dir) o = Optional (Some a, os, None) ->
  dest a = Some flag -> arg_type a = type_bool ->
  stores (parser script_dir) ns seen argv ns' ->
  forall pre, argv = (pre ++ [o; s])%list ->
  ns' !! flag = Some (PyBool (PyStr.bool s)).
Proof.
  intros Hpo Hd Hty.
  induction 1 as [ns seen ns' Hf|ns seen s0 rest a0 os0 arg ns1 seen1 ns' _ Hpo0 _ Ht _ IH
                 |ns seen s0 arg rest a0 os0 ns1 seen1 ns' _ Hpo0 _ HA Ht Hst IH];
    intros pre Heq.
  - by destruct pre.
  - destruct pre as [|x pre]; simplify_eq/=.
    + congruence.
    + by eapply IH.
  - destruct pre as [|x [|y pre]]; simplify_eq/=.
    + inversion Hst as [? ? ? Hf| |]; simplify_eq.
      rewrite finish_parser in Hf. injection Hf as <-.
      apply take_store_Some in Ht as (d & v & Hd' & Hv & -> & _).
      assert (a0 = a) as -> by congruence.
      rewrite get_values_bool, (is_A_not_separator _ _ HA) in Hv by done.
      simplify_eq. by rewrite lookup_insert_eq.
    + apply is_A_positional in HA. congruence.
    + by eapply IH.
Qed.

Lemma stores_last_attached o os flag a s ns seen argv ns' :
  parse_optional (parser script_dir) o = Optional (Some a, os, Some s) ->
  dest a = Some flag -> arg_type a = type_bool -> s <> "--" ->
  stores (parser script_dir) ns seen argv ns' ->
  forall pre, argv = (pre ++ [o])%list ->
  ns' !! flag = Some (PyBool (PyStr.bool s)).
Proof.
  intros Hpo Hd Hty Hs.
  induction 1 as [ns seen ns' Hf|ns seen s0 rest a0 os0 arg ns1 seen1 ns' _ Hpo0 _ Ht Hst IH
                 |ns seen s0 arg rest a0 os0 ns1 seen1 ns' _ Hpo0 _ HA Ht Hst IH];
    intros pre Heq.
  - by destruct pre.
  - destruct pre as [|x pre]; simplify_eq/=.
    + inversion Hst as [? ? ? Hf| |]; simplify_eq.
      rewrite finish_parser in Hf. injection Hf as <-.
      apply take_store_Some in Ht as (d & v & Hd' & Hv & -> & _).
      assert (a0 = a /\ arg = s) as [-> ->] by (split; congruence).
      rewrite get_values_bool in Hv by done.
      apply String.eqb_neq in Hs. rewrite Hs in Hv. simplify_eq.
      by rewrite lookup_insert_eq.
    + by eapply IH.
  - destruct pre as [|x [|y pre]]; simplify_eq/=.
    + apply is_A_positional in HA. congruence.
    + by eapply IH.
Qed.

Lemma supplies_empty_cons p d x argv :
  supplies_empty p d argv -> supplies_empty p d (x :: argv).
Proof.
  intros [(pre & o & post & a & os & -> & H)|(o & a & os & Hin & H)].
  - left. by exists (x :: pre), o, post, a, os.
  - right. exists o, a, os. split; [by right|done].
Qed.

(** A boolean flag that ends up [False] was not given, or was given the
    empty string. *)
Lemma stores_false flag ns seen argv ns' :
  flag ∈ bool_flags ->
  stores (parser script_dir) ns seen argv ns' ->
  ns' !! flag = Some (PyBool false) ->
  (ns !! flag = Some (PyBool false) /\
   Forall (fun s => selects (parser script_dir) flag s = false) argv)
  \/ supplies_empty (parser script_dir) flag argv.
Proof.
  intros Hflag.
  induction 1 as [ns seen ns' Hf|ns seen s0 rest a os arg ns1 seen1 ns' _ Hpo _ Ht _ IH
                 |ns seen s0 arg rest a os ns1 seen1 ns' _ Hpo _ HA Ht _ IH];
    intros Hfin.
  - rewrite finish_parser in Hf. injection Hf as <-. by left.
  - destruct (IH Hfin) as [[H1 Hall]|Hsup]; [|right; by apply supplies_empty_cons].
    apply take_store_Some in Ht as (d & v & Hd & Hv & -> & _).
    destruct (decide (d = flag)) as [->|Hne].
    + rewrite lookup_insert_eq in H1. injection H1 as ->.
      apply get_values_bool_false in Hv as ->.
      * right. right. exists s0, a, os. split; [left|done].
      * eapply bool_flag_type; [done| |done]. by eapply parse_optional_elem.
    + rewrite lookup_insert_ne in H1 by done. left. split; [done|].
      apply Forall_cons. split; [|done].
      unfold selects. rewrite Hpo. apply bool_decide_eq_false. congruence.
  - destruct (IH Hfin) as [[H1 Hall]|Hsup];
      [|right; by do 2 apply supplies_empty_cons].
    apply take_store_Some in Ht as (d & v & Hd & Hv & -> & _).
    destruct (decide (d = flag)) as [->|Hne].
    + rewrite lookup_insert_eq in H1. injection H1 as ->.
      apply get_values_bool_false in Hv as ->.
      * right. left. by exists [], s0, rest, a, os.
      * eapply bool_flag_type; [done| |done]. by eapply parse_optional_elem.
    + rewrite lookup_insert_ne in H1 by done. left. split; [done|].
      apply Forall_cons. split.
      { unfold selects. rewrite Hpo. apply bool_decide_eq_false. congruence. }
      apply Forall_cons. split; [|done].
      unfold selects. by rewrite (is_A_positional _ _ HA).
Qed.

Lemma supplies_separator_cons p d x argv :
  supplies_separator p d argv -> supplies_separator p d (x :: argv).
Proof.
  intros (o & a & os & Hin & H). exists o, a, os. split; [by right|done].
Qed.

(** The separator attached to a boolean flag is stripped before the
    conversion, which leaves the empty list. *)
Lemma bool_flag_separator flag :
  flag ∈ bool_flags ->
  parse_args (parser script_dir) ["--" ++ flag ++ "=" ++ "--"]
  = Parsed (<[flag := PyEmptyList]> (defaults script_dir)).
Proof.
  intros Hf.
  destruct (bool_flag_option flag Hf) as (a & _ & Hpo & _ & Hdd & Hd & Hc & Ht).
  unfold parse_args. cbn [has_ambiguous consume]. rewrite Hdd, Hpo, Hc.
  unfold take_store. rewrite get_values_bool, Hd by done.
  cbn [String.eqb Ascii.eqb Bool.eqb mbind option_bind].
  by rewrite finish_parser, initial_namespace_parser.
Qed.

(** What a boolean flag can hold, and where a false one comes from: the
    flag was not given, or was given the empty string, or had the
    separator attached. *)
Lemma stores_falsy flag ns seen argv ns' v :
  flag ∈ bool_flags ->
  stores (parser script_dir) ns seen argv ns' ->
  ns' !! flag = Some v ->
  (ns !! flag = Some v /\
   Forall (fun s => selects (parser script_dir) flag s = false) argv)
  \/ (exists s, v = PyBool (PyStr.bool s)
               /\ (s = "" -> supplies_empty (parser script_dir) flag argv))
  \/ (v = PyEmptyList /\ supplies_separator (parser script_dir) flag argv).
Proof.
  intros Hflag.
  induction 1 as [ns seen ns' Hf|ns seen s0 rest a os arg ns1 seen1 ns' _ Hpo _ Ht _ IH
                 |ns seen s0 arg rest a os ns1 seen1 ns' _ Hpo _ HA Ht _ IH];
    intros Hfin.
  - rewrite finish_parser in Hf. injection Hf as <-. by left.
  - destruct (IH Hfin) as [[H1 Hall]|[(s & -> & Hsup)|[-> Hsup]]].
    + apply take_store_Some in Ht as (d & v' & Hd & Hv & -> & _).
      destruct (decide (d = flag)) as [->|Hne].
      * rewrite lookup_insert_eq in H1. injection H1 as ->.
        rewrite get_values_bool in Hv
          by (eapply bool_flag_type; [done| |done]; by eapply parse_optional_elem).
        destruct (String.eqb arg "--") eqn:Harg; injection Hv as <-.
        -- apply String.eqb_eq in Harg as ->. right. right. split; [done|].
           exists s0, a, os. split; [left|done].
        -- right. left. exists arg. split; [done|]. intros ->.
           right. exists s0, a, os. split; [left|done].
      * rewrite lookup_insert_ne in H1 by done. left. split; [done|].
        apply Forall_cons. split; [|done].
        unfold selects. rewrite Hpo. apply bool_decide_eq_false. congruence.
    + right. left. exists s. split; [done|].
      intros Hs. by apply supplies_empty_cons, Hsup.
    + right. right. split; [done|]. by apply supplies_separator_cons.
  - destruct (IH Hfin) as [[H1 Hall]|[(s & -> & Hsup)|[-> Hsup]]].
    + apply take_store_Some in Ht as (d & v' & Hd & Hv & -> & _).
      destruct (decide (d = flag)) as [->|Hne].
      * rewrite lookup_insert_eq in H1. injection H1 as ->.
        rewrite get_values_bool in Hv
          by (eapply bool_flag_type; [done| |done]; by eapply parse_optional_elem).
        rewrite (is_A_not_separator _ _ HA) in Hv. injection Hv as <-.
        right. left. exists arg. split; [done|]. intros ->.
        left. by exists [], s0, rest, a, os.
      * rewrite lookup_insert_ne in H1 by done. left. split; [done|].
        apply Forall_cons. split.
        { unfold selects. rewrite Hpo. apply bool_decide_eq_false. congruence. }
        apply Forall_cons. split; [|done].
        unfold selects. by rewrite (is_A_positional _ _ HA).
    + right. left. exists s. split; [done|].
      intros Hs. do 2 apply supplies_empty_cons. by apply Hsup.
    + right. right. split; [done|]. by do 2 apply supplies_separator_cons.
Qed.

End cli_facts.

Section cli_claims.

Import Argparse train_ds2.

(** C6.  The parser of the training driver declares, besides the
    [-h/--help] that [argparse] adds, exactly the flags [--config/-c] (a
    string, defaulting to the bundled YAML file), [--export/-e] (a string,
    default [None]), [--mixed_precision] ([bool], default [False]),
    [--save_weights] ([bool], default [False]), [--max_ckpts] ([int],
    default 10), [--eval_train_ratio] ([int], default 1) and
    [--tfrecords] ([bool], default [False]).  Every namespace it produces
    has exactly these seven attributes, every string of an accepted
    command line is one of these flags or the argument of one, a flag
    that the command line does not give has its default, and the empty
    command line yields all the defaults. *)
Theorem cli_flags_and_defaults (script_dir : string) :
  let p := parser script_dir in
  map (fun a => (option_strings a, dest a, class a, arg_type a, arg_default a))
      (actions p)
  = [ (["-h"; "--help"], None, HelpAction, type_str, None);
      (["--config"; "-c"], Some "config", StoreAction, type_str,
       Some (PyStr (DEFAULT_YAML script_dir)));
      (["--export"; "-e"], Some "export", StoreAction, type_str, Some PyNone);
      (["--mixed_precision"], Some "mixed_precision", StoreAction, type_bool,
       Some (PyBool false));
      (["--save_weights"], Some "save_weights", StoreAction, type_bool,
       Some (PyBool false));
      (["--max_ckpts"], Some "max_ckpts", StoreAction, type_int, Some (PyInt 10));
      (["--eval_train_ratio"], Some "eval_train_ratio", StoreAction, type_int,
       Some (PyInt 1));
      (["--tfrecords"], Some "tfrecords", StoreAction, type_bool,
       Some (PyBool false)) ]
  /\ (forall argv ns, parse_args p argv = Parsed ns -> dom ns = attributes)
  /\ (forall argv ns s,
        parse_args p argv = Parsed ns -> s ∈ argv ->
        (exists a os e d v,
            parse_optional p s = Optional (Some a, os, e) /\
            os ∈ option_strings a /\ dest a = Some d /\
            (d, arg_type a, v) ∈ declared script_dir)
        \/ is_A p s = true)
  /\ (forall argv ns d t v,
        (d, t, v) ∈ declared script_dir ->
        parse_args p argv = Parsed ns ->
        Forall (fun s => selects p d s = false) argv ->
        ns !! d = Some v)
  /\ parse_args p [] = Parsed (defaults script_dir).
Proof.
  intros p. subst p. split; [reflexivity|]. split; [apply parse_args_dom|].
  split; [|split].
  - intros argv ns s H%parse_args_stores Hs.
    apply stores_elements in H. rewrite Forall_forall in H.
    destruct (H s Hs) as [(a & os & e & Hpo & Hc)|HA]; [left|by right].
    destruct (parse_optional_elem _ _ _ _ _ Hpo) as [Ha Hos].
    destruct (dest a) as [d|] eqn:Hd.
    + destruct (actions_parser_dest _ _ _ Ha Hd) as (_ & v & _ & Hin).
      by exists a, os, e, d, v.
    + revert Ha Hc Hd. unfold parser, add_argument, ArgumentParser.
      cbn [actions app]. rewrite !elem_of_cons, elem_of_nil.
      intros [->|[->|[->|[->|[->|[->|[->|[->|[]]]]]]]]]; by cbn.
  - intros argv ns d t v. apply parse_args_omitted.
  - unfold parse_args. cbn [has_ambiguous consume].
    by rewrite finish_parser, initial_namespace_parser.
Qed.

Lemma cli_flags_and_defaults_witness :
  parse_args (parser "/repo") ["--max_ckpts"; "3"]
    = Parsed (<["max_ckpts" := PyInt 3]> (defaults "/repo"))
  /\ (<["max_ckpts" := PyInt 3]> (defaults "/repo") : Namespace) !! "tfrecords"
     = Some (PyBool false).
Proof.
  assert (parse_args (parser "/repo") ["--max_ckpts"; "3"]
          = Parsed (<["max_ckpts" := PyInt 3]> (defaults "/repo"))) as Hparse
    by (vm_compute; reflexivity).
  split; [exact Hparse|].
  destruct (cli_flags_and_defaults "/repo") as (_ & _ & _ & Homitted & _).
  apply (Homitted ["--max_ckpts"; "3"] _ "tfrecords" type_bool (PyBool false)).
  - unfold declared. rewrite !elem_of_cons. tauto.
  - exact Hparse.
  - repeat constructor.
Defined.

(** C5.  The flags [--mixed_precision], [--save_weights] and [--tfrecords]
    are declared with [type=bool], and [bool] of a string is [True]
    exactly when the string is not empty.  So a command line that gives
    such a flag a non-empty value, [False] included, as the next argument
    or attached with [=], sets the attribute to [True]; the empty value
    sets it to [False]; a command line that does not give the flag leaves
    [False]; and an accepted command line leaves [False] only if it does
    not give the flag or gives it the empty string.  One non-empty value
    is the exception: attached as [--flag=--], the separator is stripped
    by [argparse] before the conversion, and the attribute is the empty
    list, which is not [True] and counts as false.  So the attribute of an
    accepted command line is [True], [False] or the empty list, and it
    counts as false only if the flag is not given, is given the empty
    string, or is given as [--flag=--]. *)
Theorem bool_flags_truthiness (script_dir flag : string) :
  flag ∈ bool_flags ->
  let p := parser script_dir in
  let given (b : bool) := Parsed (<[flag := PyBool b]> (defaults script_dir)) in
  (forall s, PyStr.bool s = true <-> s <> "")
  /\ (forall s, s <> "" -> is_A p s = true ->
        parse_args p ["--" ++ flag; s] = given true)
  /\ parse_args p ["--" ++ flag; "False"] = given true
  /\ parse_args p ["--" ++ flag; ""] = given false
  /\ (forall s, s <> "" -> s <> "--" ->
        parse_args p ["--" ++ flag ++ "=" ++ s] = given true)
  /\ parse_args p ["--" ++ flag ++ "=" ++ "False"] = given true
  /\ parse_args p ["--" ++ flag ++ "=" ++ ""] = given false
  /\ (forall pre s ns,
        s <> "" ->
        parse_args p (pre ++ [("--" ++ flag)%string; s])%list = Parsed ns ->
        ns !! flag = Some (PyBool true))
  /\ (forall pre s ns,
        s <> "" -> s <> "--" ->
        parse_args p (pre ++ [("--" ++ flag ++ "=" ++ s)%string])%list = Parsed ns ->
        ns !! flag = Some (PyBool true))
  /\ (forall argv ns,
        parse_args p argv = Parsed ns ->
        Forall (fun s => selects p flag s = false) argv ->
        ns !! flag = Some (PyBool false))
  /\ (forall argv ns,
        parse_args p argv = Parsed ns ->
        ns !! flag = Some (PyBool false) ->
        Forall (fun s => selects p flag s = false) argv
        \/ supplies_empty p flag argv)
  /\ (forall s, PyStr.startswith s "-" = false -> is_A p s = true)
  /\ parse_args p ["--" ++ flag ++ "=" ++ "--"]
     = Parsed (<[flag := PyEmptyList]> (defaults script_dir))
  /\ truthy PyEmptyList = false
  /\ (forall argv ns,
        parse_args p argv = Parsed ns ->
        exists v, ns !! flag = Some v
                  /\ (v = PyBool true \/ v = PyBool false \/ v = PyEmptyList)
                  /\ (truthy v = false ->
                      Forall (fun s => selects p flag s = false) argv
                      \/ supplies_empty p flag argv
                      \/ supplies_separator p flag argv)).
Proof.
  intros Hflag p given. subst p given.
  assert (forall s, PyStr.bool s = true <-> s <> "") as Hbool.
  { intros [|c s]; cbn; split; congruence. }
  assert (forall s, s <> "" -> PyStr.bool s = true) as Htrue by (intros s; apply Hbool).
  destruct (bool_flag_option script_dir flag Hflag)
    as (a & Hpo & Hpo' & _ & _ & Hd & _ & Hty).
  split; [exact Hbool|].
  split. { intros s Hs HA. rewrite bool_flag_next by done. by rewrite Htrue. }
  split. { by apply (bool_flag_next script_dir flag "False"). }
  split. { by apply (bool_flag_next script_dir flag ""). }
  split. { intros s Hs Hdd. rewrite bool_flag_attached by done. by rewrite Htrue. }
  split. { by apply (bool_flag_attached script_dir flag "False"). }
  split. { by apply (bool_flag_attached script_dir flag ""). }
  split.
  { intros pre s ns Hs H%parse_args_stores.
    erewrite stores_last_next; [by rewrite Htrue|done..]. }
  split.
  { intros pre s ns Hs Hdd H%parse_args_stores.
    erewrite stores_last_attached; [by rewrite Htrue|apply Hpo'|done..]. }
  split.
  { intros argv ns H Hom.
    assert (exists t, (flag, t, PyBool false) ∈ declared script_dir) as [t Hin].
    { revert Hflag. unfold bool_flags, declared. rewrite !elem_of_cons, elem_of_nil.
      intros [->|[->|[->|[]]]]; exists type_bool; rewrite !elem_of_cons; tauto. }
    by eapply parse_args_omitted. }
  split.
  { intros argv ns H%parse_args_stores Hfalse.
    destruct (stores_false script_dir flag _ _ _ _ Hflag H Hfalse) as [[_ Hom]|Hsup];
      [by left|by right]. }
  split. { intros s. apply no_dash_is_A. }
  split. { by apply bool_flag_separator. }
  split; [reflexivity|].
  intros argv ns H.
  assert (flag ∈ dom ns) as [v Hv]%elem_of_dom.
  { rewrite (parse_args_dom _ _ _ H). revert Hflag.
    unfold bool_flags, attributes. rewrite !elem_of_cons, elem_of_nil.
    rewrite !elem_of_union, !elem_of_singleton. intros [->|[->|[->|[]]]]; tauto. }
  exists v. split; [done|]. apply parse_args_stores in H.
  destruct (stores_falsy script_dir flag _ _ _ _ v Hflag H Hv)
    as [[Hdef Hom]|[(s & -> & Hsup)|[-> Hsup]]].
  - rewrite initial_namespace_parser in Hdef.
    assert (v = PyBool false) as ->.
    { revert Hflag Hdef. unfold bool_flags. rewrite !elem_of_cons, elem_of_nil.
      intros [->|[->|[->|[]]]]; vm_compute; congruence. }
    split; [tauto|]. intros _. by left.
  - split; [destruct (PyStr.bool s); tauto|].
    cbn [truthy]. intros Hs. right. left. apply Hsup. by destruct s.
  - split; [tauto|]. intros _. by right; right.
Qed.

Lemma bool_flags_truthiness_witness :
  "tfrecords" ∈ bool_flags
  /\ parse_args (parser "/repo") ["--max_ckpts"; "3"; "--tfrecords"; "False"]
     = Parsed (<["tfrecords" := PyBool true]>
                 (<["max_ckpts" := PyInt 3]> (defaults "/repo")))
  /\ (<["tfrecords" := PyBool true]>
        (<["max_ckpts" := PyInt 3]> (defaults "/repo")) : Namespace) !! "tfrecords"
     = Some (PyBool true).
Proof.
  assert ("tfrecords" ∈ bool_flags) as Hflag.
  { unfold bool_flags. rewrite !elem_of_cons. tauto. }
  assert (parse_args (parser "/repo") ["--max_ckpts"; "3"; "--tfrecords"; "False"]
          = Parsed (<["tfrecords" := PyBool true]>
                      (<["max_ckpts" := PyInt 3]> (defaults "/repo")))) as Hparse
    by (vm_compute; reflexivity).
  split; [exact Hflag|]. split; [exact Hparse|].
  destruct (bool_flags_truthiness "/repo" "tfrecords" Hflag)
    as (_ & _ & _ & _ & _ & _ & _ & Hlast & _).
  apply (Hlast ["--max_ckpts"; "3"] "False").
  - discriminate.
  - exact Hparse.
Defined.

(** A non-empty value that does not make the flag [True]: the command
    line [--tfrecords=--] is accepted and leaves [args.tfrecords] the
    empty list, so that the run constructs its datasets without
    tfrecords. *)
Lemma tfrecords_separator_value_not_True :
  "--" <> ""
  /\ parse_args (parser "/repo") ["--tfrecords=--"]
     = Parsed (<["tfrecords" := PyEmptyList]> (defaults "/repo"))
  /\ PyEmptyList <> PyBool true
  /\ truthy PyEmptyList = false
  /\ map cls (constructed_datasets
                (trace (main example_lib "/repo" example_files ["--tfrecords=--"])))
     = [ASRSliceDataset; ASRSliceDataset].
Proof.
  split; [discriminate|]. split; [vm_compute; reflexivity|].
  split; [discriminate|]. split; [reflexivity|]. vm_compute. reflexivity.
Qed.

End cli_claims.

(** ** The training driver *)

Section driver_facts.

Import Argparse train_ds2.

(** The steps of [main] that perform no library call. *)
Lemma parse_pure p argv : trace (parse p argv) = [].
Proof. unfold parse. by destruct (parse_args p argv). Qed.

Lemma getattr_pure args k : trace (getattr args k) = [].
Proof. unfold getattr. by destruct (args !! k). Qed.

Lemma getitem_pure c k : trace (getitem c k) = [].
Proof. unfold getitem. destruct c; try done. by destruct (m !! k). Qed.

Lemma getitems_pure c ks : trace (getitems c ks) = [].
Proof.
  unfold getitems. assert (trace (mret c : M yaml) = []) as H by done.
  revert H. generalize (mret c : M yaml).
  induction ks as [|k ks IH]; intros m Hm; [done|].
  cbn [foldl]. apply IH. destruct m as [t [x|a]]; cbn in *; [done|].
  subst t. pose proof (getitem_pure a k) as Hk. by destruct (getitem a k).
Qed.

Lemma load_config_pure fs d c : trace (load_config fs d c) = [].
Proof.
  unfold load_config. destruct c; try done; cbn; by destruct (UserConfig _ _ _ _).
Qed.

Lemma parse_Parsed p argv args :
  parse_args p argv = Parsed args -> parse p argv = ([], inr args).
Proof. unfold parse. by intros ->. Qed.

Lemma getattr_Some args k v : args !! k = Some v -> getattr args k = ([], inr v).
Proof. unfold getattr. by intros ->. Qed.

Lemma getattr_inr args k v t : getattr args k = (t, inr v) -> args !! k = Some v.
Proof.
  unfold getattr, raise, mret, M_ret.
  destruct (args !! k); intros ?; by simplify_eq.
Qed.

Lemma result_eq {A} (m : M A) t r : m = (t, r) -> result m = r.
Proof. by intros ->. Qed.

End driver_facts.

(** Symbolic execution of [main]: a step that performs no library call is
    split into its two outcomes, steps being taken in program order. *)
Ltac case_pure m H :=
  let Hp := fresh "Hp" in
  let t := fresh "t" in
  pose proof H as Hp; unfold train_ds2.trace in Hp;
  destruct m as [t [?|?]] eqn:?; cbn [fst] in Hp; subst t.

Ltac on_getattr k :=
  match goal with
  | |- context [train_ds2.getattr ?a k] =>
      case_pure (train_ds2.getattr a k) (getattr_pure a k)
  end.

Ltac on_getitem k :=
  match goal with
  | |- context [train_ds2.getitem ?c k] =>
      case_pure (train_ds2.getitem c k) (getitem_pure c k)
  end.

Ltac on_getitems ks :=
  match goal with
  | |- context [train_ds2.getitems ?c ks] =>
      case_pure (train_ds2.getitems c ks) (getitems_pure c ks)
  end.

Ltac run_step :=
  first
  [ match goal with
    | |- context [train_ds2.parse ?p ?a] =>
        case_pure (train_ds2.parse p a) (parse_pure p a)
    end
  | on_getattr "config"
  | match goal with
    | |- context [train_ds2.load_config ?f ?d ?c] =>
        case_pure (train_ds2.load_config f d c) (load_config_pure f d c)
    end
  | on_getitem "speech_config"
  | on_getitem "decoder_config"
  | on_getattr "mixed_precision"
  | match goal with
    | |- context [if train_ds2.truthy ?v then _ else _] =>
        destruct (train_ds2.truthy v) eqn:?
    end
  | on_getattr "tfrecords"
  | on_getitems ["learning_config"; "dataset_config"; "train_paths"]
  | on_getitems ["learning_config"; "dataset_config"; "eval_paths"]
  | on_getitems ["learning_config"; "dataset_config"; "tfrecords_dir"]
  | on_getitems ["learning_config"; "augmentations"]
  | on_getitems ["learning_config"; "running_config"]
  | match goal with
    | |- context [train_ds2.compute_feature_dim ?l ?s] =>
        destruct (train_ds2.compute_feature_dim l s) as [? ?] eqn:?
    end
  | on_getitem "model_config"
  | on_getitems ["learning_config"; "optimizer_config"]
  | on_getattr "max_ckpts"
  | on_getattr "eval_train_ratio"
  | on_getattr "export"
  | on_getattr "save_weights" ].

Ltac run_main :=
  unfold train_ds2.main, train_ds2.trace;
  repeat (cbn -[train_ds2.result train_ds2.DEFAULT_YAML train_ds2.parser train_ds2.parse
                train_ds2.load_config train_ds2.getattr train_ds2.getitem
                train_ds2.getitems train_ds2.truthy train_ds2.seeded_first];
          try (run_step; simplify_eq)).

Section driver_runs.

Import Argparse train_ds2.

Variables (lib : Library) (script_dir : string) (fs : files).



(** The two datasets of a run, by the branch that constructed them. *)
Lemma main_datasets argv args tfv train_dataset eval_dataset :
  parse_args (parser script_dir) argv = Parsed args ->
  args !! "tfrecords" = Some tfv ->
  constructed_datasets (trace (main lib script_dir fs argv))
    = [train_dataset; eval_dataset] ->
  exists cv config,
    args !! "config" = Some cv /\
    result (load_config fs (DEFAULT_YAML script_dir) cv) = inr config /\
    result (getitems config eval_paths_keys) = inr (data_paths eval_dataset) /\
    if truthy tfv then
      result (getitems config train_paths_keys) = inr (data_paths train_dataset) /\
      cls train_dataset = ASRTFRecordDataset /\
      cls eval_dataset = ASRTFRecordDataset /\
      stage train_dataset = "train" /\ shuffle train_dataset = true /\
      stage eval_dataset = "eval" /\ shuffle eval_dataset = false
    else
      result (getitems config eval_paths_keys) = inr (data_paths train_dataset) /\
      cls train_dataset = ASRSliceDataset /\
      cls eval_dataset = ASRSliceDataset /\
      stage train_dataset = "train" /\ shuffle train_dataset = true /\
      stage eval_dataset = "train" /\ shuffle eval_dataset = true.
Proof.
  intros Hargs%parse_Parsed Htf%getattr_Some.
  unfold eval_paths_keys, train_paths_keys.
  run_main; try discriminate.
  all: intros [= <- <-]; do 2 eexists;
    (split; [by eapply getattr_inr|]);
    (split; [by erewrite result_eq|]);
    cbn; (split; [by erewrite result_eq|]);
    repeat split; by erewrite result_eq.
Qed.



End driver_runs.

Section driver_claims.

Import Argparse train_ds2.



(** C9.  When the run takes the branch without tfrecords, its evaluation
    dataset is an [ASRSliceDataset] constructed with stage ["train"] and
    [shuffle=True]; when it takes the tfrecords branch, its evaluation
    dataset is an [ASRTFRecordDataset] constructed with stage ["eval"] and
    [shuffle=False].  So two runs that take different branches disagree
    on the stage and on the shuffling of the evaluation dataset. *)
Theorem eval_dataset_stage_by_branch
    (lib : Library) (script_dir : string) (fs : files) (argv : list string)
    (args : Namespace) (tfrecords : value) (train_dataset eval_dataset : Dataset) :
  parse_args (parser script_dir) argv = Parsed args ->
  args !! "tfrecords" = Some tfrecords ->
  constructed_datasets (trace (main lib script_dir fs argv))
    = [train_dataset; eval_dataset] ->
  (truthy tfrecords = false ->
     cls eval_dataset = ASRSliceDataset /\
     stage eval_dataset = "train" /\ shuffle eval_dataset = true)
  /\ (truthy tfrecords = true ->
     cls eval_dataset = ASRTFRecordDataset /\
     stage eval_dataset = "eval" /\ shuffle eval_dataset = false)
  /\ (forall lib' script_dir' fs' argv' args' tfrecords' train_dataset' eval_dataset',
        parse_args (parser script_dir') argv' = Parsed args' ->
        args' !! "tfrecords" = Some tfrecords' ->
        constructed_datasets (trace (main lib' script_dir' fs' argv'))
          = [train_dataset'; eval_dataset'] ->
        truthy tfrecords <> truthy tfrecords' ->
        stage eval_dataset <> stage eval_dataset' /\
        shuffle eval_dataset <> shuffle eval_dataset').
Proof.
  intros Hargs Htf Hds.
  destruct (main_datasets _ _ _ _ _ _ _ _ Hargs Htf Hds)
    as (cv & config & _ & _ & _ & H).
  split; [|split].
  - intros Hb. rewrite Hb in H. tauto.
  - intros Hb. rewrite Hb in H. tauto.
  - intros lib' script_dir' fs' argv' args' tfrecords' train' eval' Hargs' Htf' Hds' Hne.
    destruct (main_datasets _ _ _ _ _ _ _ _ Hargs' Htf' Hds')
      as (cv' & config' & _ & _ & _ & H').
    destruct (truthy tfrecords), (truthy tfrecords'); try done;
      destruct H as (_ & _ & _ & _ & _ & -> & ->);
      destruct H' as (_ & _ & _ & _ & _ & -> & ->); done.
Qed.

Lemma eval_dataset_stage_by_branch_witness :
  exists train_dataset eval_dataset,
    constructed_datasets (trace (main example_lib "/repo" example_files []))
      = [train_dataset; eval_dataset]
    /\ cls eval_dataset = ASRSliceDataset
    /\ stage eval_dataset = "train" /\ shuffle eval_dataset = true.
Proof.
  assert (exists train_dataset eval_dataset,
            constructed_datasets (trace (main example_lib "/repo" example_files []))
            = [train_dataset; eval_dataset]) as (train_dataset & eval_dataset & Hds)
    by (vm_compute; eauto).
  exists train_dataset, eval_dataset. split; [exact Hds|].
  assert (parse_args (parser "/repo") [] = Parsed (defaults "/repo")) as Hargs
    by (vm_compute; reflexivity).
  assert ((defaults "/repo" : Namespace) !! "tfrecords" = Some (PyBool false)) as Htf
    by reflexivity.
  destruct (eval_dataset_stage_by_branch example_lib "/repo" example_files []
              _ _ _ _ Hargs Htf Hds) as (Hslice & _ & _).
  exact (Hslice eq_refl).
Defined.

(** C1, as amended.  The evaluation dataset of a run is constructed from
    the configuration's [eval_paths].  The training dataset is constructed
    from [eval_paths] as well when the run takes the branch without
    tfrecords, and from [train_paths] when it takes the tfrecords
    branch. *)
Theorem dataset_paths_by_branch
    (lib : Library) (script_dir : string) (fs : files) (argv : list string)
    (args : Namespace) (tfrecords : value) (train_dataset eval_dataset : Dataset) :
  parse_args (parser script_dir) argv = Parsed args ->
  args !! "tfrecords" = Some tfrecords ->
  constructed_datasets (trace (main lib script_dir fs argv))
    = [train_dataset; eval_dataset] ->
  exists custom config,
    args !! "config" = Some custom
    /\ result (load_config fs (DEFAULT_YAML script_dir) custom) = inr config
    /\ result (getitems config eval_paths_keys) = inr (data_paths eval_dataset)
    /\ (truthy tfrecords = false ->
        result (getitems config eval_paths_keys) = inr (data_paths train_dataset))
    /\ (truthy tfrecords = true ->
        result (getitems config train_paths_keys) = inr (data_paths train_dataset)).
Proof.
  intros Hargs Htf Hds.
  destruct (main_datasets _ _ _ _ _ _ _ _ Hargs Htf Hds)
    as (cv & config & Hcv & Hconfig & Heval & H).
  exists cv, config. do 3 (split; [done|]).
  split; intros Hb; rewrite Hb in H; tauto.
Qed.

Lemma dataset_paths_by_branch_witness :
  exists train_dataset eval_dataset,
    constructed_datasets (trace (main example_lib "/repo" example_files []))
      = [train_dataset; eval_dataset]
    /\ data_paths train_dataset = YList [YStr "eval.tsv"]
    /\ data_paths eval_dataset = YList [YStr "eval.tsv"].
Proof.
  assert (exists train_dataset eval_dataset,
            constructed_datasets (trace (main example_lib "/repo" example_files []))
            = [train_dataset; eval_dataset]) as (train_dataset & eval_dataset & Hds)
    by (vm_compute; eauto).
  exists train_dataset, eval_dataset. split; [exact Hds|].
  assert (parse_args (parser "/repo") [] = Parsed (defaults "/repo")) as Hargs
    by (vm_compute; reflexivity).
  assert ((defaults "/repo" : Namespace) !! "tfrecords" = Some (PyBool false)) as Htf
    by reflexivity.
  destruct (dataset_paths_by_branch example_lib "/repo" example_files []
              _ _ _ _ Hargs Htf Hds)
    as (custom & config & Hcustom & Hconfig & Heval & Hslice & _).
  assert (custom = PyStr (DEFAULT_YAML "/repo")) as ->.
  { vm_compute in Hcustom. by injection Hcustom. }
  assert (config = YDict example_settings) as ->.
  { vm_compute in Hconfig. injection Hconfig as <-. reflexivity. }
  specialize (Hslice eq_refl).
  assert (result (getitems (YDict example_settings) eval_paths_keys)
          = inr (YList [YStr "eval.tsv"])) as Hpaths by (vm_compute; reflexivity).
  rewrite Hpaths in Hslice, Heval. split; congruence.
Defined.

(** C1, as stated, fails on the tfrecords branch: run with [--tfrecords 1]
    on settings whose [train_paths] and [eval_paths] differ, the driver
    constructs the training dataset from [train_paths], not from
    [eval_paths]. *)
Lemma tfrecords_train_dataset_not_from_eval_paths :
  exists train_dataset eval_dataset,
    constructed_datasets
      (trace (main example_lib "/repo" example_files ["--tfrecords"; "1"]))
      = [train_dataset; eval_dataset]
    /\ result (load_config example_files (DEFAULT_YAML "/repo")
                 (PyStr (DEFAULT_YAML "/repo"))) = inr (YDict example_settings)
    /\ result (getitems (YDict example_settings) eval_paths_keys)
       = inr (YList [YStr "eval.tsv"])
    /\ data_paths eval_dataset = YList [YStr "eval.tsv"]
    /\ data_paths train_dataset = YList [YStr "train.tsv"]
    /\ data_paths train_dataset <> YList [YStr "eval.tsv"].
Proof.
  eexists _, _. split; [vm_compute; reflexivity|].
  split; [vm_compute; reflexivity|]. split; [vm_compute; reflexivity|].
  split; [reflexivity|]. split; [reflexivity|]. discriminate.
Qed.

End driver_claims.

(** ** The configuration loader *)

Section user_config_claims.

Import user_config.

(** C2.  When the default settings file exists, the merged configuration
    that the loader produces from it and an existing override file maps
    every key of the override to the override's value and every other key
    to what the defaults map it to; an override file that does not exist,
    or no override path at all, yields the defaults. *)
Theorem UserConfig_merge
    (fs : files) (default custom : string) (learning : bool)
    (default_settings : settings) :
  fs !! default = Some default_settings ->
  (forall override,
      fs !! custom = Some override ->
      exists merged,
        UserConfig fs default (Some custom) learning = Some merged /\
        forall key,
          (forall v, override !! key = Some v -> merged !! key = Some v) /\
          (override !! key = None -> merged !! key = default_settings !! key))
  /\ (fs !! custom = None ->
      UserConfig fs default (Some custom) learning = Some default_settings)
  /\ UserConfig fs default None learning = Some default_settings.
Proof.
  intros Hdefault. unfold UserConfig. rewrite Hdefault. cbn [mbind option_bind].
  split; [|split].
  - intros override Hcustom. rewrite Hcustom. eexists. split; [reflexivity|].
    intros key. split.
    + intros v Hv. by apply lookup_union_Some_l.
    + intros Hnone. by apply lookup_union_r.
  - by intros ->.
  - reflexivity.
Qed.

Lemma UserConfig_merge_witness :
  let defaults : settings :=
    <["speech_config" := YStr "default"]> (<["model_config" := YStr "default"]> ∅) in
  let override : settings := <["model_config" := YStr "custom"]> ∅ in
  let fs : files := <["vivos.yml" := defaults]> (<["mine.yml" := override]> ∅) in
  exists merged,
    UserConfig fs "vivos.yml" (Some "mine.yml") true = Some merged
    /\ merged !! "model_config" = Some (YStr "custom")
    /\ merged !! "speech_config" = Some (YStr "default").
Proof.
  intros defaults override fs.
  assert (fs !! "vivos.yml" = Some defaults) as Hdefault by reflexivity.
  assert (fs !! "mine.yml" = Some override) as Hcustom by reflexivity.
  destruct (UserConfig_merge fs "vivos.yml" "mine.yml" true defaults Hdefault)
    as (Hmerge & _ & _).
  destruct (Hmerge override Hcustom) as (merged & Hmerged & Hkeys).
  exists merged. split; [exact Hmerged|]. split.
  - apply (Hkeys "model_config"). reflexivity.
  - destruct (Hkeys "speech_config") as [_ Habsent].
    rewrite Habsent; reflexivity.
Defined.

End user_config_claims.

(** ** The text featurizer *)

Section text_featurizer_claims.

Import text_featurizers.

Lemma index_lookup token tokens id :
  index token tokens = Some id -> tokens !! id = Some token.
Proof.
  revert id. induction tokens as [|t tokens IH]; intros id; cbn; [done|].
  destruct (String.eqb token t) eqn:E.
  - apply String.eqb_eq in E as ->. by intros [= <-].
  - destruct (index token tokens) as [i|]; cbn; [|done].
    intros [= <-]. cbn. by apply IH.
Qed.

Lemma index_elem token tokens :
  token ∈ tokens -> exists id, index token tokens = Some id.
Proof.
  induction tokens as [|t tokens IH]; [by intros ?%elem_of_nil|].
  intros Hin. cbn. destruct (String.eqb token t) eqn:E; [by eexists|].
  apply String.eqb_neq in E. apply elem_of_cons in Hin as [->|Hin]; [done|].
  destruct (IH Hin) as [id ->]. by eexists.
Qed.

Lemma index_NoDup token tokens id :
  NoDup tokens -> tokens !! id = Some token -> index token tokens = Some id.
Proof.
  intros Hnd. revert id. induction Hnd as [|t tokens Hnotin Hnd IH]; intros id; [done|].
  destruct id as [|id]; cbn.
  - intros [= ->]. by rewrite String.eqb_refl.
  - intros Hl. destruct (String.eqb token t) eqn:E.
    + apply String.eqb_eq in E as ->. apply list_elem_of_lookup_2 in Hl. done.
    + by rewrite (IH _ Hl).
Qed.

Lemma characters_join text : foldr String.append EmptyString (characters text) = text.
Proof. induction text as [|c text IH]; cbn; [done|]. by rewrite IH. Qed.

Lemma tokens_roundtrip v tokens :
  Forall (fun token => token ∈ vocab_array v) tokens ->
  exists ids, mapM (token_to_id v) tokens = Some ids /\
              mapM (id_to_token v) ids = Some tokens.
Proof.
  induction 1 as [|token tokens Hin _ (ids & Henc & Hdec)]; [by exists []|].
  destruct (index_elem _ _ Hin) as [id Hid].
  exists (id :: ids). split; apply mapM_Some_2; constructor.
  - exact Hid.
  - by apply mapM_Some_1.
  - by apply index_lookup.
  - by apply mapM_Some_1.
Qed.

(** C3.  For every text composed solely of vocabulary tokens, encoding
    succeeds and decoding the ids gives the text back; with the
    vocabulary [<blank>, a, b] and the blank at index 0, ["ab"] encodes to
    [1, 2], which decodes to ["ab"]; and for a vocabulary without repeated
    tokens the token-to-id mapping is a bijection between the tokens and
    the ids below [num_classes], with the id-to-token mapping as its
    inverse. *)
Theorem encode_decode_roundtrip :
  (forall v text,
      composed_of v text ->
      exists ids, encode v text = Some ids /\ decode v ids = Some text)
  /\ (blank example_vocabulary = 0%nat /\
      encode example_vocabulary "ab" = Some [1%nat; 2%nat] /\
      decode example_vocabulary [1%nat; 2%nat] = Some "ab")
  /\ (forall v,
        NoDup (vocab_array v) ->
        (forall token,
            token ∈ vocab_array v ->
            exists id, (id < num_classes v)%nat /\
                       token_to_id v token = Some id /\
                       id_to_token v id = Some token)
        /\ (forall id,
            (id < num_classes v)%nat ->
            exists token, token ∈ vocab_array v /\
                          id_to_token v id = Some token /\
                          token_to_id v token = Some id)
        /\ (forall token token' id,
            token_to_id v token = Some id -> token_to_id v token' = Some id ->
            token = token')).
Proof.
  split; [|split].
  - intros v text Hcomposed.
    destruct (tokens_roundtrip v _ Hcomposed) as (ids & Henc & Hdec).
    exists ids. split; [exact Henc|].
    unfold decode. rewrite Hdec. cbn. by rewrite characters_join.
  - repeat split; reflexivity.
  - intros v Hnd. split; [|split].
    + intros token Hin. destruct (index_elem _ _ Hin) as [id Hid].
      exists id. pose proof (index_lookup _ _ _ Hid) as Hl.
      split; [by eapply lookup_lt_Some|done].
    + intros id Hlt. destruct (lookup_lt_is_Some_2 (vocab_array v) id Hlt) as [token Hl].
      exists token. split; [by eapply list_elem_of_lookup_2|].
      split; [done|by apply index_NoDup].
    + intros token token' id H1%index_lookup H2%index_lookup. congruence.
Qed.

Lemma encode_decode_roundtrip_witness :
  composed_of example_vocabulary "abba"
  /\ NoDup (vocab_array example_vocabulary)
  /\ exists ids, encode example_vocabulary "abba" = Some ids
                 /\ decode example_vocabulary ids = Some "abba".
Proof.
  assert (composed_of example_vocabulary "abba") as Hcomposed.
  { unfold composed_of. cbn. repeat constructor. }
  split; [exact Hcomposed|]. split.
  - cbn. repeat constructor; rewrite ?elem_of_cons, ?elem_of_nil;
      intros H; repeat destruct H as [H|H]; discriminate || done.
  - destruct encode_decode_roundtrip as (Hround & _ & _).
    exact (Hround example_vocabulary "abba" Hcomposed).
Defined.

End text_featurizer_claims.

(** ** Checkpoints *)

Section checkpoint_claims.

Import checkpoints.

Lemma saves_kept N k :
  kept (saves N (new_manager k)) = most_recent (Nat.min N k) N
  /\ last_saved (saves N (new_manager k)) = N
  /\ max_to_keep (saves N (new_manager k)) = k.
Proof.
  induction N as [|N (Hkept & Hlast & Hmax)]; [done|].
  unfold saves in *. rewrite !Nat.iter_succ.
  set (m := Nat.iter N save (new_manager k)) in *.
  unfold save. cbn [kept last_saved max_to_keep].
  rewrite Hkept, Hlast, Hmax. split; [|done].
  unfold most_recent.
  assert (seq (S (N - Nat.min N k)) (Nat.min N k) ++ [S N]
          = seq (S (N - Nat.min N k)) (S (Nat.min N k)))%list as ->.
  { rewrite seq_S. do 2 f_equal. lia. }
  rewrite length_seq, drop_seq. f_equal; lia.
Qed.

(** C4.  After [N >= 1] saves with [max_ckpts = k >= 1], exactly
    [min N k] checkpoints remain, and they are the most recent ones: all
    [N] when [N <= k], the last [k] otherwise.  With [max_ckpts = 2],
    after the saves of [ckpt-1], [ckpt-2] and [ckpt-3], the ones that
    remain are [ckpt-2] and [ckpt-3]. *)
Theorem checkpoint_pruning (N k : nat) :
  (1 <= N)%nat -> (1 <= k)%nat ->
  length (kept (saves N (new_manager k))) = Nat.min N k
  /\ kept (saves N (new_manager k)) = most_recent (Nat.min N k) N
  /\ ((N <= k)%nat -> kept (saves N (new_manager k)) = seq 1 N)
  /\ ((k < N)%nat -> kept (saves N (new_manager k)) = seq (S (N - k)) k)
  /\ kept (saves 3 (new_manager 2)) = [2%nat; 3%nat].
Proof.
  intros HN Hk. destruct (saves_kept N k) as (Hkept & _ & _).
  rewrite Hkept. unfold most_recent.
  split; [by rewrite length_seq|]. split; [done|].
  split; [|split].
  - intros Hle. rewrite Nat.min_l by done. by rewrite Nat.sub_diag.
  - intros Hlt. by rewrite Nat.min_r by lia.
  - reflexivity.
Qed.

Lemma checkpoint_pruning_witness :
  length (kept (saves 5 (new_manager 2))) = 2%nat
  /\ kept (saves 5 (new_manager 2)) = [4%nat; 5%nat].
Proof.
  destruct (checkpoint_pruning 5 2) as (Hlen & Hkept & _); [lia|lia|].
  split; [exact Hlen|exact Hkept].
Defined.

End checkpoint_claims.

(** ** Further properties of the training driver *)

Section exits.

Import Argparse.

Variable p : Parser.

Lemma finish_exit_code ns seen extras code :
  finish p ns seen extras = SystemExit code -> code = 2.
Proof.
  unfold finish, error. destruct (foldl _ _ _); [destruct extras|]; congruence.
Qed.

Lemma help_cluster_exit_code b arg code :
  help_cluster p b arg = SystemExit code -> code = 0 \/ code = 2.
Proof.
  induction arg as [|c arg IHa]; cbn [help_cluster]; unfold error.
  { intros [= <-]. by right. }
  destruct (lookup_option p _) as [a'|]; [|intros [= <-]; by right].
  destruct (class a'), arg as [|c' arg'];
    [destruct b| | |exact IHa]; intros [= <-]; tauto.
Qed.

(** [argparse] ends the process with status 0, after [--help], or with
    status 2, after a usage error. *)
Lemma consume_exit_code : forall n argv, (length argv <= n)%nat ->
  forall ns seen extras code,
  consume p ns seen extras argv = SystemExit code -> code = 0 \/ code = 2.
Proof.
  induction n as [|n IH]; intros argv Hlen ns seen extras code H.
  - destruct argv; [|simpl in Hlen; lia]. right. by eapply finish_exit_code.
  - destruct argv as [|s rest]; [right; by eapply finish_exit_code|].
    simpl in H, Hlen. unfold error in H.
    destruct (String.eqb s "--"); [right; by eapply finish_exit_code|].
    destruct (parse_optional p s) as [|[[[a|] os] expl]|].
    + eapply IH; [|done]. lia.
    + destruct (class a), expl as [arg|].
      * destruct (take_store a arg ns seen) as [[ns1 seen1]|];
          [eapply IH; [|done]; lia|injection H as <-; by right].
      * destruct rest as [|arg rest']; [injection H as <-; by right|].
        destruct (is_A p arg); [|injection H as <-; by right].
        destruct (take_store a arg ns seen) as [[ns1 seen1]|];
          [eapply IH; [|done]; simpl in Hlen; lia|injection H as <-; by right].
      * destruct (is_long os); [injection H as <-; by right|].
        by eapply help_cluster_exit_code.
      * injection H as <-. by left.
    + eapply IH; [|done]. lia.
    + injection H as <-. by right.
Qed.

Lemma parse_args_exit_code argv code :
  parse_args p argv = SystemExit code -> code = 0 \/ code = 2.
Proof.
  unfold parse_args, error. destruct (has_ambiguous p argv).
  - intros [= <-]. by right.
  - by apply consume_exit_code with (n := length argv).
Qed.

End exits.

Section driver_outcomes.

Import Argparse train_ds2 run_facts.

Lemma getitem_inl c k t e :
  getitem c k = (t, inl e) -> e = TypeError \/ e = KeyError k.
Proof.
  unfold getitem, raise, mret, M_ret.
  destruct c; try (intros [= <- <-]; by left).
  destruct (m !! k); intros ?; simplify_eq. by right.
Qed.

Lemma getitems_from_inl ks : forall (done_keys : list string) (m : M yaml),
  (forall t e, m = (t, inl e) ->
     e = TypeError \/ exists k, k ∈ done_keys /\ e = KeyError k) ->
  forall t e,
    foldl (fun m key => m ≫= fun c => getitem c key) m ks = (t, inl e) ->
    e = TypeError \/ exists k, k ∈ (done_keys ++ ks)%list /\ e = KeyError k.
Proof.
  induction ks as [|k ks IH]; intros done_keys m Hm t e.
  - rewrite app_nil_r. apply Hm.
  - cbn [foldl]. intros H.
    replace (done_keys ++ k :: ks)%list with ((done_keys ++ [k]) ++ ks)%list
      by (by rewrite <- app_assoc).
    eapply IH; [|exact H]. clear H t e. intros t e.
    destruct m as [t0 [x|a]]; cbn.
    + intros [= <- <-]. destruct (Hm _ _ eq_refl) as [->|(k' & Hin & ->)];
        [by left|right]. exists k'. split; [|done]. apply elem_of_app. by left.
    + unfold mbind, M_bind.
      destruct (getitem a k) as [t1 [x|v]] eqn:Hk; intros ?; simplify_eq.
      destruct (getitem_inl _ _ _ _ Hk) as [->| ->]; [by left|right].
      exists k. split; [|done]. apply elem_of_app. right. left.
Qed.

(** A nested lookup fails with [KeyError] on one of its keys, or with
    [TypeError] on a value that is no mapping. *)
Lemma getitems_inl c ks t e :
  getitems c ks = (t, inl e) ->
  e = TypeError \/ exists k, k ∈ ks /\ e = KeyError k.
Proof.
  unfold getitems. intros H.
  apply (getitems_from_inl ks [] (mret c)) in H; [done|].
  by intros ?? [=].
Qed.

Lemma load_config_inl fs d c t e :
  load_config fs d c = (t, inl e) -> e = TypeError \/ e = OSError d.
Proof.
  unfold load_config.
  destruct c; cbn; try (intros [= <- <-]; by left);
    destruct (UserConfig _ _ _ _); cbn; intros ?; simplify_eq; by right.
Qed.

Lemma parse_inl p argv t e :
  parse p argv = (t, inl e) ->
  exists code, parse_args p argv = SystemExit code /\ e = Exit code.
Proof.
  unfold parse, raise, mret, M_ret.
  destruct (parse_args p argv); intros ?; simplify_eq. eauto.
Qed.

(** After a successful parse every attribute that [main] reads is there. *)
Lemma parsed_getattr script_dir argv args k :
  parse_args (parser script_dir) argv = Parsed args ->
  k ∈ attributes ->
  exists v, getattr args k = ([], inr v).
Proof.
  intros Hdom%parse_args_dom Hk. rewrite <- Hdom in Hk.
  apply elem_of_dom in Hk as [v Hv]. exists v. by apply getattr_Some.
Qed.

(** When [argparse] ends the process, the driver has done nothing but
    clear the session. *)
Lemma main_exit lib script_dir fs argv code :
  parse_args (parser script_dir) argv = SystemExit code ->
  main lib script_dir fs argv = ([clear_session], inl (Exit code)).
Proof. intros H. unfold main. cbn. unfold parse. by rewrite H. Qed.

End driver_outcomes.

Ltac with_attributes Hp :=
  let attr k :=
    let v := fresh "v" in
    let H := fresh "Hattr" in
    destruct (parsed_getattr _ _ _ k Hp) as [v H];
    [unfold train_ds2.attributes; rewrite !elem_of_union, !elem_of_singleton; tauto|] in
  attr "config"; attr "export"; attr "mixed_precision"; attr "save_weights";
  attr "max_ckpts"; attr "eval_train_ratio"; attr "tfrecords".

Ltac exn_cases :=
  match goal with
  | H : train_ds2.load_config _ _ _ = (_, inl _) |- _ =>
      apply load_config_inl in H as [-> | ->]
  | H : train_ds2.getitem _ _ = (_, inl _) |- _ =>
      apply getitem_inl in H as [-> | ->]
  | H : train_ds2.getitems _ _ = (_, inl _) |- _ =>
      apply getitems_inl in H as [-> | (? & ? & ->)]
  end.

Section driver_errors.

Import Argparse train_ds2 run_facts.

(** X1.  When [argparse] ends the process, with status 0 after [--help]
    or with status 2 after a usage error, the driver has done nothing but
    clear the session: no settings are loaded and nothing is constructed.
    This is the case for every command line that holds the help option or
    an option the parser does not know. *)
Theorem exit_before_any_work
    (lib : Library) (script_dir : string) (fs : files) (argv : list string) :
  (forall code,
      parse_args (parser script_dir) argv = SystemExit code ->
      (code = 0 \/ code = 2) /\
      main lib script_dir fs argv = ([clear_session], inl (Exit code)))
  /\ (forall s,
        s ∈ argv ->
        parse_optional (parser script_dir) s = Optional (None, s, None)
        \/ (exists a os e,
              parse_optional (parser script_dir) s = Optional (Some a, os, e) /\
              class a = HelpAction) ->
        exists code, parse_args (parser script_dir) argv = SystemExit code).
Proof.
  split.
  - intros code H. split; [by eapply parse_args_exit_code|by apply main_exit].
  - intros s Hs Hopt.
    destruct (parse_args (parser script_dir) argv) as [args|code] eqn:Hp;
      [exfalso|by exists code].
    apply parse_args_stores, stores_elements in Hp.
    rewrite Forall_forall in Hp.
    destruct (Hp s Hs) as [(a & os & e & Hpo & Hc)|HA%is_A_positional].
    + destruct Hopt as [Hu|(a' & os' & e' & Hpo' & Hc')]; congruence.
    + destruct Hopt as [Hu|(a' & os' & e' & Hpo' & Hc')]; congruence.
Qed.

Lemma exit_before_any_work_witness :
  "--help" ∈ ["--tfrecords"; "1"; "--help"]
  /\ exists code,
      (code = 0 \/ code = 2) /\
      main example_lib "/repo" example_files ["--tfrecords"; "1"; "--help"]
      = ([clear_session], inl (Exit code)).
Proof.
  assert ("--help" ∈ ["--tfrecords"; "1"; "--help"]) as Hin
    by (rewrite !elem_of_cons; tauto).
  split; [exact Hin|].
  destruct (exit_before_any_work example_lib "/repo" example_files
              ["--tfrecords"; "1"; "--help"]) as [Hexit Hhelp].
  destruct (Hhelp "--help" Hin) as [code Hcode].
  { right. eexists _, _, _. split; [vm_compute; reflexivity|reflexivity]. }
  exists code. exact (Hexit code Hcode).
Defined.

End driver_errors.

(** Membership of an event in a trace that is known event by event. *)
Ltac split_elem H :=
  repeat (apply elem_of_cons in H as [H|H]; [try discriminate H|]);
  try (by apply elem_of_nil in H).

Ltac find_elem :=
  repeat first [apply list_elem_of_here | apply list_elem_of_further].

(** [main] is run once, whatever the number of times the goal mentions
    the run. *)
Ltac run_main_once :=
  match goal with
  | |- context [train_ds2.main ?l ?s ?f ?a] =>
      let t := fresh "t" in
      let r := fresh "r" in
      let H := fresh "Hrun" in
      destruct (train_ds2.main l s f a) as [t r] eqn:H;
      change (train_ds2.trace (t, r)) with t;
      change (train_ds2.result (t, r)) with r;
      revert H; run_main; intros H; injection H as <- <-
  end.

Section driver_steps.

Import Argparse train_ds2 run_facts.

(** X3.  Mixed precision is enabled exactly when [args.mixed_precision]
    is true: only then is a policy set, it is [mixed_float16], it is set
    right after the seed and so before any dataset, trainer or model
    exists; and the trainer is told the very value of the flag. *)
Theorem mixed_precision_policy
    (lib : Library) (script_dir : string) (fs : files) (argv : list string)
    (args : Namespace) (mixed : value) :
  parse_args (parser script_dir) argv = Parsed args ->
  args !! "mixed_precision" = Some mixed ->
  (forall policy,
      set_policy policy ∈ trace (main lib script_dir fs argv) ->
      policy = "mixed_float16" /\ truthy mixed = true)
  /\ (set_seed 2020 ∈ trace (main lib script_dir fs argv) ->
      exists speech_featurizer text_featurizer after,
        trace (main lib script_dir fs argv)
        = ([clear_session; new_speech_featurizer speech_featurizer;
            new_text_featurizer text_featurizer; set_seed 2020]
           ++ (if truthy mixed then policy_events else []) ++ after)%list
        /\ Forall (fun e => forall policy, e <> set_policy policy) after)
  /\ (forall trainer,
        new_trainer trainer ∈ trace (main lib script_dir fs argv) ->
        is_mixed_precision trainer = mixed).
Proof.
  intros Hp%parse_Parsed Hm%getattr_Some.
  run_main_once.
  all: split; [intros policy Hin; split_elem Hin; by simplify_eq|].
  all: split; [|intros trainer Hin; split_elem Hin; by simplify_eq].
  all: intros Hin; split_elem Hin.
  all: eexists _, _, _; (split; [reflexivity|]);
    repeat first [apply Forall_nil_2 | apply Forall_cons_2]; done.
Qed.


Lemma mixed_precision_policy_witness :
  exists trainer,
    new_trainer trainer
      ∈ trace (main example_lib "/repo" example_files ["--mixed_precision"; "no"])
    /\ is_mixed_precision trainer = PyBool true.
Proof.
  assert (exists trainer,
            new_trainer trainer
              ∈ trace (main example_lib "/repo" example_files
                         ["--mixed_precision"; "no"])) as [trainer Hin].
  { vm_compute. eexists. do 9 right. left. }
  exists trainer. split; [exact Hin|].
  assert (parse_args (parser "/repo") ["--mixed_precision"; "no"]
          = Parsed (<["mixed_precision" := PyBool true]> (defaults "/repo"))) as Hp
    by (vm_compute; reflexivity).
  destruct (mixed_precision_policy example_lib "/repo" example_files
              ["--mixed_precision"; "no"] _ (PyBool true) Hp eq_refl)
    as (_ & _ & Htrainer).
  exact (Htrainer trainer Hin).
Defined.

(** X4.  The model is saved at most once, as the last thing a run does
    and only after the trainer was fitted: a run saves only with a true
    [args.export], and then it saves the weights alone when
    [args.save_weights] is true and the whole model otherwise, to the
    path [args.export].  A run that ends normally with a true
    [args.export] has saved.  Without [--export], or with an empty path,
    nothing is saved whatever [--save_weights] says. *)
Theorem export_after_training
    (lib : Library) (script_dir : string) (fs : files) (argv : list string)
    (args : Namespace) (export save_weights : value) :
  parse_args (parser script_dir) argv = Parsed args ->
  args !! "export" = Some export ->
  args !! "save_weights" = Some save_weights ->
  (length (List.filter is_save (trace (main lib script_dir fs argv))) <= 1)%nat
  /\ (truthy export = false ->
      List.filter is_save (trace (main lib script_dir fs argv)) = [])
  /\ (forall e,
      e ∈ trace (main lib script_dir fs argv) -> is_save e = true ->
      truthy export = true
      /\ e = (if truthy save_weights then model_save_weights export
              else model_save export)
      /\ exists before train_dataset eval_dataset ratio,
           trace (main lib script_dir fs argv)
           = (before ++ [trainer_fit train_dataset eval_dataset ratio; e])%list
           /\ List.filter is_save before = [])
  /\ (result (main lib script_dir fs argv) = inr tt ->
      truthy export = true ->
      last (trace (main lib script_dir fs argv))
      = Some (if truthy save_weights then model_save_weights export
              else model_save export)).
Proof.
  intros Hp%parse_Parsed Hex%getattr_Some Hsw%getattr_Some.
  run_main_once.
  all: split; [cbn; lia|].
  all: split; [intros Hfalse; try reflexivity; congruence|].
  all: split; [intros saved Hin Hsave; split_elem Hin; subst saved;
               try discriminate Hsave
              |intros Hres Htrue; try discriminate Hres; try discriminate Htrue;
               reflexivity].
  all: split; [done|]; split; [reflexivity|].
  all: match goal with
       | |- exists _ _ _ _, ?t = _ /\ _ => exists (removelast (removelast t))
       end; eexists _, _, _; split; reflexivity.
Qed.

Lemma export_after_training_witness :
  last (trace (main example_lib "/repo" example_files
                 ["--export"; "out.h5"; "--save_weights"; "False"]))
  = Some (model_save_weights (PyStr "out.h5")).
Proof.
  assert (parse_args (parser "/repo") ["--export"; "out.h5"; "--save_weights"; "False"]
          = Parsed (<["save_weights" := PyBool true]>
                      (<["export" := PyStr "out.h5"]> (defaults "/repo")))) as Hp
    by (vm_compute; reflexivity).
  destruct (export_after_training example_lib "/repo" example_files
              ["--export"; "out.h5"; "--save_weights"; "False"] _
              (PyStr "out.h5") (PyBool true) Hp eq_refl eq_refl)
    as (_ & _ & _ & Hlast).
  apply Hlast; [vm_compute; reflexivity|reflexivity].
Defined.


(** X5.  The model a run constructs is declared with the input shape
    [[None, f, c]], where [(f, c)] is what the speech featurizer of the run
    computes as its feature dimensions, with the number of classes of the
    run's text featurizer and the name [deepspeech2]; it is built on the
    shape [[1, 50, f, c]], of the same feature dimensions.  A run has at
    most one model, the model that is compiled is that one, and it is
    compiled with [max_to_keep = args.max_ckpts]. *)
Theorem model_construction
    (lib : Library) (script_dir : string) (fs : files) (argv : list string)
    (args : Namespace) :
  parse_args (parser script_dir) argv = Parsed args ->
  (forall model,
      new_model model ∈ trace (main lib script_dir fs argv) ->
      exists speech_featurizer text_featurizer f c,
        new_speech_featurizer speech_featurizer ∈ trace (main lib script_dir fs argv)
        /\ new_text_featurizer text_featurizer ∈ trace (main lib script_dir fs argv)
        /\ compute_feature_dim lib speech_featurizer = (f, c)
        /\ input_shape model = [None; Some f; Some c]
        /\ num_classes model = text_num_classes lib text_featurizer
        /\ name model = "deepspeech2"
        /\ model_build [1; 50; f; c] ∈ trace (main lib script_dir fs argv))
  /\ (forall model optimizer_config max_to_keep,
        trainer_compile model optimizer_config max_to_keep
          ∈ trace (main lib script_dir fs argv) ->
        new_model model ∈ trace (main lib script_dir fs argv)
        /\ args !! "max_ckpts" = Some max_to_keep)
  /\ (forall model model',
        new_model model ∈ trace (main lib script_dir fs argv) ->
        new_model model' ∈ trace (main lib script_dir fs argv) ->
        model = model').
Proof.
  intros Hp%parse_Parsed.
  run_main_once.
  all: split; [intros model Hin; split_elem Hin; simplify_eq;
               eexists _, _, _, _; repeat split;
               first [eassumption | reflexivity | find_elem]
              |].
  all: split; [intros model oc mk Hin; split_elem Hin; simplify_eq;
               split; first [by eapply getattr_inr | find_elem]
              |].
  all: intros model model' Hin Hin'; split_elem Hin; split_elem Hin'; congruence.
Qed.

Lemma model_construction_witness :
  exists model optimizer_config,
    trainer_compile model optimizer_config (PyInt 3)
      ∈ trace (main example_lib "/repo" example_files ["--max_ckpts"; "3"])
    /\ new_model model
        ∈ trace (main example_lib "/repo" example_files ["--max_ckpts"; "3"]).
Proof.
  assert (exists model optimizer_config,
            trainer_compile model optimizer_config (PyInt 3)
              ∈ trace (main example_lib "/repo" example_files ["--max_ckpts"; "3"]))
    as (model & optimizer_config & Hin).
  { vm_compute. eexists _, _. do 11 right. left. }
  exists model, optimizer_config. split; [exact Hin|].
  assert (parse_args (parser "/repo") ["--max_ckpts"; "3"]
          = Parsed (<["max_ckpts" := PyInt 3]> (defaults "/repo"))) as Hp
    by (vm_compute; reflexivity).
  destruct (model_construction example_lib "/repo" example_files
              ["--max_ckpts"; "3"] _ Hp) as (_ & Hcompile & _).
  exact (proj1 (Hcompile _ _ _ Hin)).
Defined.

(** X6.  The strategy scope is entered at most once and is left whenever
    it was entered, also when the model cannot be constructed because the
    configuration has no [model_config]; the model is constructed and
    built inside the scope and nowhere else. *)
Theorem strategy_scope_always_left
    (lib : Library) (script_dir : string) (fs : files) (argv : list string) :
  List.filter is_scope_event (trace (main lib script_dir fs argv)) = []
  \/ (List.filter is_scope_event (trace (main lib script_dir fs argv))
       = [scope_enter; scope_exit]
      /\ (result (main lib script_dir fs argv) = inl (KeyError "model_config")
          \/ result (main lib script_dir fs argv) = inl TypeError))
  \/ (exists model shape,
        List.filter is_scope_event (trace (main lib script_dir fs argv))
        = [scope_enter; new_model model; model_build shape; scope_exit]).
Proof.
  run_main_once.
  all: first
         [ left; reflexivity
         | right; right; eexists _, _; reflexivity
         | right; left; split; [reflexivity|exn_cases; tauto] ].
Qed.

(** X7.  A run constructs one speech featurizer and one text featurizer,
    and every dataset and the trainer are given these two; what the
    trainer is fitted on are the two datasets the run constructed, the
    training dataset first, with [args.eval_train_ratio]. *)
Theorem one_featurizer_pair
    (lib : Library) (script_dir : string) (fs : files) (argv : list string)
    (args : Namespace) :
  parse_args (parser script_dir) argv = Parsed args ->
  (forall f f',
      new_speech_featurizer f ∈ trace (main lib script_dir fs argv) ->
      new_speech_featurizer f' ∈ trace (main lib script_dir fs argv) -> f = f')
  /\ (forall f f',
      new_text_featurizer f ∈ trace (main lib script_dir fs argv) ->
      new_text_featurizer f' ∈ trace (main lib script_dir fs argv) -> f = f')
  /\ (forall d,
      new_dataset d ∈ trace (main lib script_dir fs argv) ->
      new_speech_featurizer (ds_speech_featurizer d)
        ∈ trace (main lib script_dir fs argv)
      /\ new_text_featurizer (ds_text_featurizer d)
          ∈ trace (main lib script_dir fs argv))
  /\ (forall trainer,
      new_trainer trainer ∈ trace (main lib script_dir fs argv) ->
      new_speech_featurizer (tr_speech_featurizer trainer)
        ∈ trace (main lib script_dir fs argv)
      /\ new_text_featurizer (tr_text_featurizer trainer)
          ∈ trace (main lib script_dir fs argv))
  /\ (forall train_dataset eval_dataset ratio,
      trainer_fit train_dataset eval_dataset ratio
        ∈ trace (main lib script_dir fs argv) ->
      constructed_datasets (trace (main lib script_dir fs argv))
        = [train_dataset; eval_dataset]
      /\ args !! "eval_train_ratio" = Some ratio).
Proof.
  intros Hp%parse_Parsed.
  run_main_once.
  all: split; [intros f f' Hin Hin'; split_elem Hin; split_elem Hin'; congruence|].
  all: split; [intros f f' Hin Hin'; split_elem Hin; split_elem Hin'; congruence|].
  all: split; [intros d Hin; split_elem Hin; simplify_eq; split; find_elem|].
  all: split; [intros tr Hin; split_elem Hin; simplify_eq; split; find_elem|].
  all: intros tr ev ratio Hin; split_elem Hin; simplify_eq;
    split; first [reflexivity | by eapply getattr_inr].
Qed.

Lemma one_featurizer_pair_witness :
  exists train_dataset eval_dataset,
    trainer_fit train_dataset eval_dataset (PyInt 4)
      ∈ trace (main example_lib "/repo" example_files ["--eval_train_ratio"; "4"])
    /\ constructed_datasets
         (trace (main example_lib "/repo" example_files ["--eval_train_ratio"; "4"]))
       = [train_dataset; eval_dataset].
Proof.
  assert (exists train_dataset eval_dataset,
            trainer_fit train_dataset eval_dataset (PyInt 4)
              ∈ trace (main example_lib "/repo" example_files
                         ["--eval_train_ratio"; "4"]))
    as (train_dataset & eval_dataset & Hin).
  { vm_compute. eexists _, _. do 12 right. left. }
  exists train_dataset, eval_dataset. split; [exact Hin|].
  assert (parse_args (parser "/repo") ["--eval_train_ratio"; "4"]
          = Parsed (<["eval_train_ratio" := PyInt 4]> (defaults "/repo"))) as Hp
    by (vm_compute; reflexivity).
  destruct (one_featurizer_pair example_lib "/repo" example_files
              ["--eval_train_ratio"; "4"] _ Hp) as (_ & _ & _ & _ & Hfit).
  exact (proj1 (Hfit _ _ _ Hin)).
Defined.

End driver_steps.

Section driver_configuration.

Import Argparse train_ds2 run_facts.

Lemma result_pure {A} (m : M A) r : trace m = [] -> result m = r -> m = ([], r).
Proof. destruct m. unfold trace, result. cbn. by intros -> ->. Qed.

Lemma getitem_result c k v : result (getitem c k) = inr v -> getitem c k = ([], inr v).
Proof. apply result_pure, getitem_pure. Qed.

Lemma getitems_result c ks v :
  result (getitems c ks) = inr v -> getitems c ks = ([], inr v).
Proof. apply result_pure, getitems_pure. Qed.

Lemma load_config_result fs d c v :
  result (load_config fs d c) = inr v -> load_config fs d c = ([], inr v).
Proof. apply result_pure, load_config_pure. Qed.

Lemma foldl_getitem_raise x ks :
  foldl (fun (m : M yaml) key => m ≫= fun c => getitem c key) ([], inl x) ks
  = ([], inl x).
Proof. induction ks as [|k ks IH]; [done|]. cbn [foldl]. exact IH. Qed.

(** A nested lookup fails as the lookup of its first key does. *)
Lemma getitems_first_raises c k ks e :
  result (getitem c k) = inl e -> getitems c (k :: ks) = ([], inl e).
Proof.
  intros Hk. apply result_pure in Hk; [|apply getitem_pure].
  unfold getitems. cbn [foldl].
  unfold mret, M_ret, mbind, M_bind. rewrite Hk.
  apply foldl_getitem_raise.
Qed.

(** X8.  Without tfrecords a run does not depend on [train_paths] or
    [tfrecords_dir]: when [args.tfrecords] is false, two settings that
    agree on what [main] looks up then, which is [speech_config],
    [decoder_config], [model_config] and, under [learning_config],
    [dataset_config.eval_paths], [augmentations], [running_config] and
    [optimizer_config], give the same run, whatever else they hold and
    whether they have [train_paths] and [tfrecords_dir] or not. *)
Theorem slice_run_needs_no_train_paths
    (lib : Library) (script_dir : string) (fs fs' : files) (argv : list string)
    (args : Namespace) (tfrecords custom : value) (config config' : yaml) :
  parse_args (parser script_dir) argv = Parsed args ->
  args !! "tfrecords" = Some tfrecords ->
  truthy tfrecords = false ->
  args !! "config" = Some custom ->
  result (load_config fs (DEFAULT_YAML script_dir) custom) = inr config ->
  result (load_config fs' (DEFAULT_YAML script_dir) custom) = inr config' ->
  getitem config "speech_config" = getitem config' "speech_config" ->
  getitem config "decoder_config" = getitem config' "decoder_config" ->
  getitem config "model_config" = getitem config' "model_config" ->
  getitems config eval_paths_keys = getitems config' eval_paths_keys ->
  getitems config ["learning_config"; "augmentations"]
  = getitems config' ["learning_config"; "augmentations"] ->
  getitems config ["learning_config"; "running_config"]
  = getitems config' ["learning_config"; "running_config"] ->
  getitems config ["learning_config"; "optimizer_config"]
  = getitems config' ["learning_config"; "optimizer_config"] ->
  main lib script_dir fs argv = main lib script_dir fs' argv.
Proof.
  intros Hp%parse_Parsed Htf%getattr_Some Hfalse Hcustom%getattr_Some
    Hconfig%load_config_result Hconfig'%load_config_result
    Hspeech Hdecoder Hmodel Hpaths Haug Hrunning Hoptimizer.
  unfold eval_paths_keys in Hpaths. unfold main. rewrite Hp.
  repeat (cbn -[DEFAULT_YAML parser parse load_config getattr getitem getitems
                truthy];
          rewrite ?Hcustom, ?Hconfig, ?Hconfig', ?Hspeech, ?Hdecoder, ?Hmodel,
            ?Hpaths, ?Haug, ?Hrunning, ?Hoptimizer, ?Htf, ?Hfalse).
  reflexivity.
Qed.

Lemma slice_run_needs_no_train_paths_witness :
  let settings : settings :=
    <["speech_config" := YDict ∅]> (
    <["decoder_config" := YDict ∅]> (
    <["model_config" := YDict ∅]> (
    <["learning_config" := YDict (
        <["dataset_config" := YDict (<["eval_paths" := YList [YStr "eval.tsv"]]> ∅)]> (
        <["augmentations" := YDict ∅]> (
        <["running_config" := YDict ∅]> (
        <["optimizer_config" := YDict ∅]> ∅))))]> ∅))) in
  result (getitems (YDict settings) train_paths_keys) = inl (KeyError "train_paths")
  /\ result (getitems (YDict example_settings) train_paths_keys)
     = inr (YList [YStr "train.tsv"])
  /\ main example_lib "/repo" example_files []
     = main example_lib "/repo" (<[DEFAULT_YAML "/repo" := settings]> ∅) [].
Proof.
  intros settings. split; [vm_compute; reflexivity|].
  split; [vm_compute; reflexivity|].
  eapply (slice_run_needs_no_train_paths example_lib "/repo" _ _ []
            (defaults "/repo") (PyBool false) (PyStr (DEFAULT_YAML "/repo"))
            (YDict example_settings) (YDict settings));
    vm_compute; reflexivity.
Defined.

(** X9.  A run that ends normally does these things once each and in this
    order: it clears the session, constructs the speech featurizer and the
    text featurizer, sets the seed, enables mixed precision if asked to,
    constructs the training dataset and the evaluation dataset, then the
    trainer, constructs and builds the model inside the strategy scope,
    compiles the trainer with that model, fits it on the two datasets, and
    saves the model if asked to. *)
Theorem normal_run_order
    (lib : Library) (script_dir : string) (fs : files) (argv : list string)
    (args : Namespace) (mixed export save_weights : value) :
  parse_args (parser script_dir) argv = Parsed args ->
  args !! "mixed_precision" = Some mixed ->
  args !! "export" = Some export ->
  args !! "save_weights" = Some save_weights ->
  result (main lib script_dir fs argv) = inr tt ->
  exists speech_featurizer text_featurizer train_dataset eval_dataset trainer
         model shape optimizer_config max_to_keep ratio,
    trace (main lib script_dir fs argv)
    = ([clear_session; new_speech_featurizer speech_featurizer;
        new_text_featurizer text_featurizer; set_seed 2020]
       ++ (if truthy mixed then policy_events else [])
       ++ [new_dataset train_dataset; new_dataset eval_dataset;
           new_trainer trainer; scope_enter; new_model model;
           model_build shape; scope_exit;
           trainer_compile model optimizer_config max_to_keep;
           trainer_fit train_dataset eval_dataset ratio]
       ++ (if truthy export
           then [if truthy save_weights then model_save_weights export
                 else model_save export]
           else []))%list.
Proof.
  intros Hp%parse_Parsed Hm%getattr_Some Hex%getattr_Some Hsw%getattr_Some.
  run_main_once; try discriminate; intros _;
    eexists _, _, _, _, _, _, _, _, _, _; reflexivity.
Qed.

Lemma normal_run_order_witness :
  exists speech_featurizer text_featurizer rest,
    trace (main example_lib "/repo" example_files ["--mixed_precision"; "1"])
    = ([clear_session; new_speech_featurizer speech_featurizer;
        new_text_featurizer text_featurizer; set_seed 2020]
       ++ policy_events ++ rest)%list
    /\ length rest = 9%nat.
Proof.
  assert (parse_args (parser "/repo") ["--mixed_precision"; "1"]
          = Parsed (<["mixed_precision" := PyBool true]> (defaults "/repo"))) as Hp
    by (vm_compute; reflexivity).
  destruct (normal_run_order example_lib "/repo" example_files
              ["--mixed_precision"; "1"] _ (PyBool true) PyNone (PyBool false)
              Hp eq_refl eq_refl eq_refl)
    as (sf & tf & tr & ev & trainer & model & shape & oc & mk & ratio & Htrace).
  { vm_compute. reflexivity. }
  exists sf, tf. eexists. split.
  - rewrite Htrace. cbn [truthy]. reflexivity.
  - reflexivity.
Defined.

(** X12.  The configuration is looked up only where it is used.  When
    the lookup of [speech_config] fails, the run stops on that error right
    after parsing, having constructed nothing.  When [speech_config] and
    [decoder_config] are there and the lookup of [learning_config] fails,
    both featurizers are constructed and the seed is set first, and the
    run stops on that error before any dataset exists. *)
Theorem configuration_checked_on_use
    (lib : Library) (script_dir : string) (fs : files) (argv : list string)
    (args : Namespace) (custom : value) (config : yaml) :
  parse_args (parser script_dir) argv = Parsed args ->
  args !! "config" = Some custom ->
  result (load_config fs (DEFAULT_YAML script_dir) custom) = inr config ->
  (forall e,
      result (getitem config "speech_config") = inl e ->
      main lib script_dir fs argv = ([clear_session], inl e))
  /\ (forall speech decoder e,
        result (getitem config "speech_config") = inr speech ->
        result (getitem config "decoder_config") = inr decoder ->
        result (getitem config "learning_config") = inl e ->
        result (main lib script_dir fs argv) = inl e
        /\ constructed_datasets (trace (main lib script_dir fs argv)) = []
        /\ exists after,
             trace (main lib script_dir fs argv)
             = clear_session
               :: new_speech_featurizer {| speech_config := speech |}
               :: new_text_featurizer {| decoder_config := decoder |}
               :: set_seed 2020 :: after).
Proof.
  intros Hp Hcustom%getattr_Some Hconfig%load_config_result.
  with_attributes Hp. apply parse_Parsed in Hp. split.
  - intros e Hspeech. apply result_pure in Hspeech; [|apply getitem_pure].
    run_main_once; congruence.
  - intros speech decoder e Hspeech%getitem_result Hdecoder%getitem_result Hl.
    pose proof (getitems_first_raises config "learning_config"
                  ["dataset_config"; "train_paths"] e Hl) as H1.
    pose proof (getitems_first_raises config "learning_config"
                  ["dataset_config"; "eval_paths"] e Hl) as H2.
    run_main_once; simplify_eq; (split; [reflexivity|]);
      (split; [reflexivity|]); eexists; reflexivity.
Qed.

Lemma configuration_checked_on_use_witness :
  exists e,
    result (getitem (YDict (<["model_config" := YDict ∅]> ∅)) "speech_config") = inl e
    /\ main example_lib "/repo"
         (<[DEFAULT_YAML "/repo" := (<["model_config" := YDict ∅]> ∅ : settings)]> ∅) []
       = ([clear_session], inl e).
Proof.
  assert (parse_args (parser "/repo") [] = Parsed (defaults "/repo")) as Hp
    by (vm_compute; reflexivity).
  assert (exists e,
            result (getitem (YDict (<["model_config" := YDict ∅]> ∅)) "speech_config")
            = inl e) as [e He].
  { eexists. vm_compute. reflexivity. }
  exists e. split; [exact He|].
  eapply (configuration_checked_on_use example_lib "/repo" _ [] _
            (PyStr (DEFAULT_YAML "/repo")) (YDict (<["model_config" := YDict ∅]> ∅))).
  - exact Hp.
  - reflexivity.
  - vm_compute. reflexivity.
  - exact He.
Defined.

End driver_configuration.

Section option_strings.

Import Argparse train_ds2 run_facts.

Variable p : Parser.
Variables (x y : string) (a : Action).
Hypothesis x_not_separator : x <> "--".
Hypothesis y_not_separator : y <> "--".
Hypothesis parse_x : parse_optional p x = Optional (Some a, x, None).
Hypothesis parse_y : parse_optional p y = Optional (Some a, y, None).

Lemma alias_is_A : is_A p x = is_A p y.
Proof. unfold is_A. rewrite parse_x, parse_y. by rewrite !andb_false_r. Qed.

Lemma alias_not_A : is_A p x = false.
Proof. unfold is_A. rewrite parse_x. by rewrite andb_false_r. Qed.

(** Two option strings of one action can stand for each other anywhere
    on the command line. *)
Lemma consume_alias : forall n pre, (length pre <= n)%nat ->
  forall post ns seen extras,
    consume p ns seen extras (pre ++ x :: post)
    = consume p ns seen extras (pre ++ y :: post).
Proof.
  pose proof alias_is_A as HA. pose proof alias_not_A as HxA.
  assert (is_A p y = false) as HyA by congruence.
  apply String.eqb_neq in x_not_separator as Hx, y_not_separator as Hy.
  induction n as [|n IH]; intros pre Hlen post ns seen extras.
  - destruct pre; [|cbn in Hlen; lia].
    cbn [app consume]. by rewrite Hx, Hy, parse_x, parse_y.
  - destruct pre as [|s pre].
    { cbn [app consume]. by rewrite Hx, Hy, parse_x, parse_y. }
    cbn [length] in Hlen. cbn [app consume].
    destruct (String.eqb s "--"); [done|].
    destruct (parse_optional p s) as [|[[[a0|] os] [arg|]]|];
      try done; try (apply IH; lia).
    + destruct (class a0).
      * destruct (take_store a0 arg ns seen) as [[ns1 seen1]|]; [|done].
        apply IH. lia.
      * destruct (is_long os); [done|].
        destruct pre as [|s' pre]; cbn [app]; [by rewrite HxA, HyA|done].
    + destruct (class a0); [|done].
      destruct pre as [|s' pre]; cbn [app]; [by rewrite HxA, HyA|].
      destruct (is_A p s'); [|done].
      destruct (take_store a0 s' ns seen) as [[ns1 seen1]|]; [|done].
      apply IH. cbn [length] in Hlen. lia.
Qed.

Lemma has_ambiguous_alias pre post :
  has_ambiguous p (pre ++ x :: post) = has_ambiguous p (pre ++ y :: post).
Proof.
  apply String.eqb_neq in x_not_separator as Hx, y_not_separator as Hy.
  induction pre as [|s pre IH]; cbn [app has_ambiguous].
  - by rewrite Hx, Hy, parse_x, parse_y.
  - by rewrite IH.
Qed.

Lemma parse_args_alias pre post :
  parse_args p (pre ++ x :: post) = parse_args p (pre ++ y :: post).
Proof.
  unfold parse_args. rewrite has_ambiguous_alias.
  by rewrite (consume_alias (length pre) pre).
Qed.

End option_strings.

Section option_values.

Import Argparse train_ds2 run_facts.

Variable script_dir : string.

Lemma config_option_strings :
  exists a, parse_optional (parser script_dir) "-c" = Optional (Some a, "-c", None)
         /\ parse_optional (parser script_dir) "--config"
            = Optional (Some a, "--config", None).
Proof. eexists. split; vm_compute; reflexivity. Qed.

Lemma export_option_strings :
  exists a, parse_optional (parser script_dir) "-e" = Optional (Some a, "-e", None)
         /\ parse_optional (parser script_dir) "--export"
            = Optional (Some a, "--export", None).
Proof. eexists. split; vm_compute; reflexivity. Qed.

Lemma max_ckpts_option :
  exists a, parse_optional (parser script_dir) "--max_ckpts"
            = Optional (Some a, "--max_ckpts", None)
         /\ dest a = Some "max_ckpts" /\ arg_type a = type_int.
Proof. eexists. split; [vm_compute; reflexivity|]. split; reflexivity. Qed.

(** The option that ends an accepted command line stores the conversion
    of its argument. *)
Lemma stores_last_value o os flag a s ns seen argv ns' :
  parse_optional (parser script_dir) o = Optional (Some a, os, None) ->
  dest a = Some flag ->
  stores (parser script_dir) ns seen argv ns' ->
  forall pre, argv = (pre ++ [o; s])%list ->
  exists v, call_type (arg_type a) s = Some v /\ ns' !! flag = Some v.
Proof.
  intros Hpo Hd.
  induction 1 as [ns seen ns' Hf|ns seen s0 rest a0 os0 arg ns1 seen1 ns' _ Hpo0 _ Ht _ IH
                 |ns seen s0 arg rest a0 os0 ns1 seen1 ns' _ Hpo0 _ HA Ht Hst IH];
    intros pre Heq.
  - by destruct pre.
  - destruct pre as [|x pre]; simplify_eq/=.
    + congruence.
    + by eapply IH.
  - destruct pre as [|x [|y pre]]; simplify_eq/=.
    + inversion Hst as [? ? ? Hf| |]; simplify_eq.
      rewrite finish_parser in Hf. injection Hf as <-.
      apply take_store_Some in Ht as (d & v & Hd' & Hv & -> & _).
      assert (a0 = a) as -> by congruence.
      unfold get_values in Hv. rewrite (is_A_not_separator _ _ HA) in Hv.
      exists v. split; [done|]. simplify_eq. by rewrite lookup_insert_eq.
    + apply is_A_positional in HA. congruence.
    + by eapply IH.
Qed.

(** The trainer is compiled with [max_to_keep = args.max_ckpts]. *)
Lemma compile_max_to_keep lib fs argv model optimizer_config max_to_keep :
  trainer_compile model optimizer_config max_to_keep
    ∈ trace (main lib script_dir fs argv) ->
  exists args, parse_args (parser script_dir) argv = Parsed args
            /\ args !! "max_ckpts" = Some max_to_keep.
Proof.
  destruct (parse_args (parser script_dir) argv) as [args|code] eqn:Hp.
  - intros Hin. exists args. split; [done|]. revert Hin.
    with_attributes Hp. apply parse_Parsed in Hp.
    run_main_once; intros Hin; split_elem Hin; simplify_eq;
      by eapply getattr_inr.
  - intros Hin. exfalso. revert Hin.
    unfold main, parse. rewrite Hp. cbn. intros Hin. split_elem Hin.
Qed.

End option_values.

Section option_claims.

Import Argparse train_ds2 run_facts.

(** X10.  The short and the long option strings are interchangeable:
    writing [-c] for [--config], or [-e] for [--export], anywhere on the
    command line changes nothing of what the run does or how it ends. *)
Theorem short_options_are_aliases
    (lib : Library) (script_dir : string) (fs : files) (pre post : list string) :
  main lib script_dir fs (pre ++ "-c" :: post)
  = main lib script_dir fs (pre ++ "--config" :: post)
  /\ main lib script_dir fs (pre ++ "-e" :: post)
     = main lib script_dir fs (pre ++ "--export" :: post).
Proof.
  destruct (config_option_strings script_dir) as (ac & Hc1 & Hc2).
  destruct (export_option_strings script_dir) as (ae & He1 & He2).
  split; unfold main, parse.
  - by rewrite (parse_args_alias _ "-c" "--config" ac).
  - by rewrite (parse_args_alias _ "-e" "--export" ae).
Qed.

(** X11.  When [--max_ckpts s] ends the command line and the run gets as
    far as compiling the trainer, [s] is an integer literal that [int]
    accepts and the trainer is compiled with that integer as
    [max_to_keep], whatever [--max_ckpts] options came before. *)
Theorem max_ckpts_reaches_compile
    (lib : Library) (script_dir : string) (fs : files) (pre : list string)
    (s : string) (model : DeepSpeech2) (optimizer_config : yaml)
    (max_to_keep : value) :
  trainer_compile model optimizer_config max_to_keep
    ∈ trace (main lib script_dir fs (pre ++ ["--max_ckpts"; s])) ->
  exists z, PyStr.int s = Some z /\ max_to_keep = PyInt z.
Proof.
  intros (args & Hp%parse_args_stores & Hmk)%compile_max_to_keep.
  destruct (max_ckpts_option script_dir) as (a & Hpo & Hd & Hty).
  destruct (stores_last_value script_dir _ _ _ _ s _ _ _ _ Hpo Hd Hp pre eq_refl)
    as (v & Hv & Hv').
  rewrite Hty in Hv. cbn [call_type] in Hv.
  destruct (PyStr.int s) as [z|]; [|done].
  exists z. split; [done|]. cbn in Hv. congruence.
Qed.

Lemma max_ckpts_reaches_compile_witness :
  exists model optimizer_config max_to_keep,
    trainer_compile model optimizer_config max_to_keep
      ∈ trace (main example_lib "/repo" example_files
                 ["--max_ckpts"; "7"; "--max_ckpts"; "3"])
    /\ exists z, PyStr.int "3" = Some z /\ max_to_keep = PyInt z.
Proof.
  assert (exists model optimizer_config max_to_keep,
            trainer_compile model optimizer_config max_to_keep
              ∈ trace (main example_lib "/repo" example_files
                         (["--max_ckpts"; "7"] ++ ["--max_ckpts"; "3"])))
    as (model & optimizer_config & max_to_keep & Hin).
  { vm_compute. eexists _, _, _. do 11 right. left. }
  exists model, optimizer_config, max_to_keep. split; [exact Hin|].
  exact (max_ckpts_reaches_compile example_lib "/repo" example_files
           ["--max_ckpts"; "7"] "3" model optimizer_config max_to_keep Hin).
Defined.

End option_claims.
